(** * Flower image classifier (src/classifier.py): a shallow embedding

    The Python class [Classifier] is embedded as pure functions over an
    explicit object record.  Exceptions are values of [result]; the
    collaborators the class calls (the filesystem, [torchvision.models],
    [datasets.ImageFolder] and the argument checks of the [torch] layer
    constructors) are the fields of an environment record [Env], so every
    statement below holds for whatever those collaborators do. *)

From Stdlib Require Import ZArith String Ascii List Bool Lia.
From Stdlib Require Import Floats.SpecFloat DecimalString.
From stdpp Require Import base option list strings gmap.

Local Open Scope string_scope.
Local Open Scope Z_scope.

(** ** Exceptions and results *)

Module Py.

Inductive exc : Type :=
| TypeError (msg : string)
| ValueError (msg : string)
| OverflowError (msg : string)
| KeyError (key : string)
| AttributeError (msg : string)
| NotADirectoryError (msg : string)
| RecursionError (msg : string)
| ExternalError (msg : string).

Inductive result (A : Type) : Type :=
| Ok (a : A)
| Raise (e : exc).

Arguments Ok {A} a.
Arguments Raise {A} e.

Definition bind {A B : Type} (r : result A) (k : A -> result B) : result B :=
  match r with
  | Ok a => k a
  | Raise e => Raise e
  end.

Definition is_ok {A : Type} (r : result A) : bool :=
  match r with Ok _ => true | Raise _ => false end.

(** ** Numbers

    Python floats are IEEE binary64 values, held here as [spec_float] with
    precision 53 and maximal exponent 1024. *)

Definition prec : Z := 53.
Definition emax : Z := 1024.

Definition float_of_Z (z : Z) : spec_float := binary_normalize prec emax z 0 false.

(** A decimal literal of the source, [digits / 10^scale], rounded to the
    nearest binary64 value ([0.485] is [float_literal 485 3]). *)
Definition float_literal (digits : Z) (scale : Z) : spec_float :=
  SFdiv prec emax (float_of_Z digits) (float_of_Z (10 ^ scale)).

(** The numeric arguments a caller passes: [int], [float] or [bool]. *)
Inductive num : Type :=
| Int (z : Z)
| Float (f : spec_float)
| Bool (b : bool).

(** [float(x)] *)
Definition float (x : num) : result spec_float :=
  match x with
  | Float f => Ok f
  | Bool b => Ok (float_of_Z (if b then 1 else 0))
  | Int z =>
      match float_of_Z z with
      | S754_infinity _ => Raise (OverflowError "int too large to convert to float")
      | f => Ok f
      end
  end.

(** [int(x)]: truncation towards zero for a float. *)
Definition int (x : num) : result Z :=
  match x with
  | Int z => Ok z
  | Bool b => Ok (if b then 1 else 0)
  | Float f =>
      match f with
      | S754_zero _ => Ok 0
      | S754_infinity _ => Raise (OverflowError "cannot convert float infinity to integer")
      | S754_nan => Raise (ValueError "cannot convert float NaN to integer")
      | S754_finite s m e =>
          let mag := if 0 <=? e then Z.pos m * 2 ^ e else Z.pos m / 2 ^ (- e) in
          Ok (if s then - mag else mag)
      end
  end.

(** The values a dictionary of settings holds. *)
Inductive val : Type :=
| VStr (s : string)
| VInt (z : Z)
| VFloat (f : spec_float).

End Py.

Import Py.

#[global] Instance result_ret : MRet result := fun A a => Ok a.
#[global] Instance result_bind : MBind result := fun A B k r => Py.bind r k.

(** ** Strings, paths and dictionaries *)

Definition dquote : string := String "034"%char EmptyString.

(** The decimal spelling of an index, as [nn.Sequential] names its children. *)
Definition str_of_nat (n : nat) : string :=
  DecimalString.NilEmpty.string_of_uint (Nat.to_uint n).

Definition startswith_sep (s : string) : bool :=
  match s with
  | String c _ => Ascii.eqb c "/"%char
  | EmptyString => false
  end.

Fixpoint endswith_sep (s : string) : bool :=
  match s with
  | EmptyString => false
  | String c EmptyString => Ascii.eqb c "/"%char
  | String _ rest => endswith_sep rest
  end.

Definition is_empty (s : string) : bool :=
  match s with EmptyString => true | _ => false end.

(** [os.path.join(a, b)] of posixpath, for a first argument that may be
    [None]: [os.fspath(None)] raises [TypeError]. *)
Definition path_join (a : option string) (b : string) : result string :=
  match a with
  | None => Raise (TypeError "expected str, bytes or os.PathLike object, not NoneType")
  | Some a =>
      Ok (if startswith_sep b then b
          else if is_empty a || endswith_sep a then a ++ b
          else a ++ "/" ++ b)%string
  end.

(** A dictionary whose iteration order matters is an association list in
    insertion order; [d[k]] raises [KeyError] on a missing key. *)
Fixpoint assoc {A : Type} (d : list (string * A)) (k : string) : option A :=
  match d with
  | [] => None
  | (k', v) :: rest => if String.eqb k' k then Some v else assoc rest k
  end.

Definition getitem {A : Type} (o : option A) (k : string) : result A :=
  match o with
  | Some v => Ok v
  | None => Raise (KeyError k)
  end.

(** ** Transforms, datasets and loaders *)

Inductive Transform : Type :=
| RandomRotation (degrees : Z)
| RandomResizedCrop (size : Z)
| RandomHorizontalFlip
| ToTensor
| Resize (size : Z)
| CenterCrop (size : Z)
| Normalize (mean std : list spec_float).

(** [transforms.Compose(ts)] *)
Record Compose : Type := { transforms : list Transform }.

(** [datasets.ImageFolder(root, transform=t)]: the class list and the
    samples (path, class index) come from enumerating [root]. *)
Record ImageFolder : Type := {
  root : string;
  transform_of : Compose;
  classes : list string;
  samples : list (string * nat)
}.

(** [utils.data.DataLoader(dataset, batch_size=b, shuffle=s)] *)
Record DataLoader : Type := {
  dataset : ImageFolder;
  batch_size : Z;
  shuffle : bool
}.

(** ** Network modules *)

(** A parameter object: its identity (what [id()] tells two parameters
    apart by), its shape and its flag.  The numbers it holds are not
    modelled. *)
Record Param : Type := {
  ident : Z;
  shape : list Z;
  requires_grad : bool
}.

Inductive layer : Type :=
| Sequential
| Linear (in_features out_features : Z)
| ReLU
| Dropout (p : val)
| LogSoftmax (dim : Z)
| OtherLayer (cls : string).

(** An [nn.Module]: its class, its own parameters and its named children,
    both in registration order. *)
#[local] Unset Elimination Schemes.
Inductive Module : Type :=
| mkModule (kind : layer) (own : list (string * Param))
           (children : list (string * Module)).
#[local] Set Elimination Schemes.

Definition kind_of (m : Module) : layer :=
  match m with mkModule k _ _ => k end.
Definition own_of (m : Module) : list (string * Param) :=
  match m with mkModule _ ps _ => ps end.
Definition children_of (m : Module) : list (string * Module) :=
  match m with mkModule _ _ cs => cs end.

(** [m.parameters()]: own parameters, then those of each child, recursively. *)
Fixpoint parameters (m : Module) : list Param :=
  match m with
  | mkModule _ ps cs =>
      List.map snd ps ++ List.flat_map (fun nc => parameters (snd nc)) cs
  end.

Definition set_requires_grad (b : bool) (p : Param) : Param :=
  {| ident := ident p; shape := shape p; requires_grad := b |}.

(** The first identity from [from] on that is above those of the
    parameters in [live]: a new object is distinct from every live one. *)
Definition fresh_ident (from : Z) (live : list Param) : Z :=
  List.fold_right (fun p above => Z.max (ident p + 1) above) from live.

(** [for param in m.parameters(): param.requires_grad = False] *)
Fixpoint freeze (m : Module) : Module :=
  match m with
  | mkModule k ps cs =>
      mkModule k
        (List.map (fun np => (fst np, set_requires_grad false (snd np))) ps)
        (List.map (fun nc => (fst nc, freeze (snd nc))) cs)
  end.

Fixpoint remove_key {A : Type} (k : string) (d : list (string * A)) : list (string * A) :=
  match d with
  | [] => []
  | (k', v) :: rest =>
      if String.eqb k' k then remove_key k rest else (k', v) :: remove_key k rest
  end.

(** [d[k] = v] on an ordered dictionary: an existing key keeps its place. *)
Fixpoint setitem {A : Type} (k : string) (v : A) (d : list (string * A)) : list (string * A) :=
  match d with
  | [] => [(k, v)]
  | (k', v') :: rest =>
      if String.eqb k' k then (k, v) :: rest else (k', v') :: setitem k v rest
  end.

(** [torch.typename] of a module. *)
Definition typename (m : Module) : string :=
  match kind_of m with
  | Sequential => "torch.nn.modules.container.Sequential"
  | Linear _ _ => "torch.nn.modules.linear.Linear"
  | ReLU => "torch.nn.modules.activation.ReLU"
  | Dropout _ => "torch.nn.modules.dropout.Dropout"
  | LogSoftmax _ => "torch.nn.modules.activation.LogSoftmax"
  | OtherLayer cls => cls
  end.

(** [modules[name] = value] on the children of a module. *)
Definition register_module (name : string) (value : Module) (m : Module) : Module :=
  match m with
  | mkModule k ps cs => mkModule k ps (setitem name value cs)
  end.

(** [m.name = value] for a module [value]: [nn.Module.__setattr__] raises
    [TypeError] when [name] is one of the module's own parameters, and
    registers the child otherwise. *)
Definition set_submodule (name : string) (value : Module) (m : Module) : result Module :=
  match assoc (own_of m) name with
  | Some _ =>
      Raise (TypeError ("cannot assign '" ++ typename value ++ "' as parameter '" ++ name
                        ++ "' (torch.nn.Parameter or None expected)")%string)
  | None => Ok (register_module name value m)
  end.

(** [m.name] for a child module. *)
Definition get_submodule (name : string) (m : Module) : result Module :=
  match assoc (children_of m) name with
  | Some c => Ok c
  | None => Raise (AttributeError name)
  end.

(** A newly created parameter is trainable. *)
Definition fresh (id : Z) (s : list Z) : Param :=
  {| ident := id; shape := s; requires_grad := true |}.

(** [nn.Linear(i, o)] creates a weight and a bias, the objects [id] and
    [id + 1]. *)
Definition new_Linear (id : Z) (i o : Z) : Module :=
  mkModule (Linear i o) [("weight", fresh id [o; i]); ("bias", fresh (id + 1) [o])] [].

Definition new_Sequential (ms : list Module) : Module :=
  mkModule Sequential [] (imap (fun i m => (str_of_nat i, m)) ms).

Inductive algorithm : Type := SGD | Adam | RMSprop | Adagrad.

Record Optimizer : Type := {
  method : algorithm;
  params : list Param;
  lr : val
}.

Inductive loss : Type := NLLLoss.

(** A batch: only its shape is modelled. *)
Record Tensor : Type := { dims : list Z }.

(** ** The collaborators

    - [isdir]: [os.path.isdir] on the filesystem of the run;
    - [models]: [getattr(torchvision.models, name)] followed by the call
      [model_factory(pretrained=True)]; [None] when the attribute is absent,
      [Some (Raise e)] when the call raises [e], as it does for an
      attribute that is no model factory (a sub-module, a class);
    - [find_images]: the directory enumeration of [datasets.ImageFolder];
    - [linear_check], [dropout_check], [adam_check]: the argument checks of
      [nn.Linear], [nn.Dropout] and [optim.Adam], [None] when they accept;
    - [size_error]: the text of the [TypeError] of [nn.Linear] for a size
      that is no integer;
    - [next_id]: the allocator of the run hands out the identities from
      [next_id] on. *)
Record Env : Type := {
  isdir : string -> bool;
  models : string -> option (result Module);
  find_images : string -> result (list string * list (string * nat));
  linear_check : Z -> Z -> option exc;
  dropout_check : val -> option exc;
  adam_check : list Param -> val -> option exc;
  size_error : val -> string;
  next_id : Z
}.

Definition check (c : option exc) : result unit :=
  match c with
  | None => Ok tt
  | Some e => Raise e
  end.

(** The object: the attributes [__init__] assigns. *)
Record Classifier : Type := {
  config : gmap string val;
  criterion : loss;
  data_dirs : list (string * string);
  data_transforms : gmap string Compose;
  data_sets : gmap string ImageFolder;
  data_loaders : gmap string DataLoader;
  model : option Module;
  optimizer : option Optimizer
}.

Definition set_model (self : Classifier) (m : Module) : Classifier :=
  {| config := config self; criterion := criterion self;
     data_dirs := data_dirs self; data_transforms := data_transforms self;
     data_sets := data_sets self; data_loaders := data_loaders self;
     model := Some m; optimizer := optimizer self |}.

Definition set_optimizer (self : Classifier) (o : Optimizer) : Classifier :=
  {| config := config self; criterion := criterion self;
     data_dirs := data_dirs self; data_transforms := data_transforms self;
     data_sets := data_sets self; data_loaders := data_loaders self;
     model := model self; optimizer := Some o |}.

(** The events a forward pass is observed by. *)
Inductive call : Type :=
| SelfForward     (* [self.forward(features)] *)
| ModelForward.   (* the composed model's forward path *)

Section WithEnv.

Context (env : Env).

(** The dictionary display of [__init__], entries evaluated in order. *)
Definition make_config (architecture : string)
    (dropout epochs hidden_units learning_rate output_units : num)
  : result (gmap string val) :=
  d ← float dropout;
  e ← int epochs;
  h ← int hidden_units;
  l ← float learning_rate;
  o ← int output_units;
  Ok (<["output_units" := VInt o]>
      (<["input_units" := VInt 1]>
      (<["learning_rate" := VFloat l]>
      (<["hidden_units" := VInt h]>
      (<["epochs" := VInt e]>
      (<["dropout" := VFloat d]>
      (<["architecture" := VStr architecture]> ∅))))))).

Definition missing_directory_message (dir ds : string) : string :=
  ("Directory " ++ dquote ++ dir ++ dquote ++ " does not exist for the "
   ++ dquote ++ ds ++ dquote ++ " data set.")%string.

(** [for ds in data_dirs: if not path.isdir(data_dirs[ds]): raise ...] *)
Fixpoint check_directories (data_dirs : list (string * string)) (keys : list string)
  : result unit :=
  match keys with
  | [] => Ok tt
  | ds :: rest =>
      dir ← getitem (assoc data_dirs ds) ds;
      if isdir env dir then check_directories data_dirs rest
      else Raise (NotADirectoryError (missing_directory_message dir ds))
  end.

Definition _get_data_directories (data_dir : option string)
  : result (list (string * string)) :=
  test ← path_join data_dir "test";
  train ← path_join data_dir "train";
  valid ← path_join data_dir "valid";
  let data_dirs := [("test", test); ("train", train); ("valid", valid)] in
  _ ← check_directories data_dirs (List.map fst data_dirs);
  Ok data_dirs.

Definition _get_data_transforms : gmap string Compose :=
  let mean := [float_literal 485 3; float_literal 456 3; float_literal 406 3] in
  let std := [float_literal 229 3; float_literal 224 3; float_literal 225 3] in
  <["test" := {| transforms := [Resize 255; CenterCrop 224; ToTensor; Normalize mean std] |}]>
  (<["valid" := {| transforms := [Resize 255; CenterCrop 224; ToTensor; Normalize mean std] |}]>
  (<["train" := {| transforms := [RandomRotation 30; RandomResizedCrop 224;
                                  RandomHorizontalFlip; ToTensor] |}]> ∅)).

Definition new_ImageFolder (dir : string) (t : Compose) : result ImageFolder :=
  found ← find_images env dir;
  Ok {| root := dir; transform_of := t; classes := fst found; samples := snd found |}.

Definition _get_image_datasets (data_dirs : list (string * string))
    (data_transforms : gmap string Compose) : result (gmap string ImageFolder) :=
  dir_test ← getitem (assoc data_dirs "test") "test";
  t_test ← getitem (data_transforms !! "test") "test";
  test ← new_ImageFolder dir_test t_test;
  dir_train ← getitem (assoc data_dirs "train") "train";
  t_train ← getitem (data_transforms !! "train") "train";
  train ← new_ImageFolder dir_train t_train;
  dir_valid ← getitem (assoc data_dirs "valid") "valid";
  t_valid ← getitem (data_transforms !! "valid") "valid";
  valid ← new_ImageFolder dir_valid t_valid;
  Ok (<["valid" := valid]> (<["train" := train]> (<["test" := test]> ∅))).

(** [shuffle] defaults to [False]. *)
Definition new_DataLoader (d : ImageFolder) (b : Z) (s : bool) : DataLoader :=
  {| dataset := d; batch_size := b; shuffle := s |}.

Definition _get_data_loaders (data_sets : gmap string ImageFolder)
  : result (gmap string DataLoader) :=
  test ← getitem (data_sets !! "test") "test";
  train ← getitem (data_sets !! "train") "train";
  valid ← getitem (data_sets !! "valid") "valid";
  Ok (<["valid" := new_DataLoader valid 64 false]>
      (<["train" := new_DataLoader train 64 true]>
      (<["test" := new_DataLoader test 64 false]> ∅))).

(** The layer constructors, with the type of their size arguments checked. *)
Definition as_int (v : val) : result Z :=
  match v with
  | VInt z => Ok z
  | _ => Raise (TypeError (size_error env v))
  end.

Definition nn_Linear (id : Z) (i o : val) : result Module :=
  i ← as_int i;
  o ← as_int o;
  _ ← check (linear_check env i o);
  Ok (new_Linear id i o).

Definition nn_Dropout (p : val) : result Module :=
  _ ← check (dropout_check env p);
  Ok (mkModule (Dropout p) [] []).

Definition optim_Adam (ps : list Param) (rate : val) : result Optimizer :=
  _ ← check (adam_check env ps rate);
  Ok {| method := Adam; params := ps; lr := rate |}.

Definition unknown_architecture_message (a : val) : string :=
  ("Unknown model architecture "
   ++ match a with VStr s => s | _ => EmptyString end ++ ".")%string.

Definition _get_model (self : Classifier) : result Module :=
  a ← getitem (config self !! "architecture") "architecture";
  model_factory ←
    match a with
    | VStr name =>
        match models env name with
        | Some factory => Ok factory
        | None => Raise (ValueError (unknown_architecture_message a))
        end
    | _ => Raise (TypeError "getattr(): attribute name must be string")
    end;
  (* Instantiate the required model. *)
  model ← model_factory;
  (* Freeze the parameters of the pre-trained network. *)
  let model := freeze model in
  (* Define the custom classifier for training; the two linear layers
     create four new parameter objects, [id] to [id + 3]. *)
  let id := fresh_ident (next_id env) (parameters model) in
  input_units ← getitem (config self !! "input_units") "input_units";
  hidden_units ← getitem (config self !! "hidden_units") "hidden_units";
  l0 ← nn_Linear id input_units hidden_units;
  dropout ← getitem (config self !! "dropout") "dropout";
  l2 ← nn_Dropout dropout;
  hidden_units ← getitem (config self !! "hidden_units") "hidden_units";
  output_units ← getitem (config self !! "output_units") "output_units";
  l3 ← nn_Linear (id + 2) hidden_units output_units;
  let clr := new_Sequential
               [l0; mkModule ReLU [] []; l2; l3; mkModule (LogSoftmax 1) [] []] in
  (* Attach the custom classifier to the model. *)
  set_submodule "classifier" clr model.

(** [_initialize_network] assigns [self.model], then [self.optimizer]; an
    exception leaves the object with the assignments made so far. *)
Definition _initialize_network (self : Classifier) : Classifier * result unit :=
  match _get_model self with
  | Raise e => (self, Raise e)
  | Ok m =>
      let self := set_model self m in
      match (clr ← get_submodule "classifier" m;
             rate ← getitem (config self !! "learning_rate") "learning_rate";
             optim_Adam (parameters clr) rate) with
      | Raise e => (self, Raise e)
      | Ok o => (set_optimizer self o, Ok tt)
      end
  end.

(** [Classifier(data_dir, output_units, architecture, epochs, hidden_units,
    learning_rate, dropout, use_gpu, category_names_file)] *)
Definition __init__ (data_dir : option string) (output_units : num)
    (architecture : string) (epochs hidden_units learning_rate dropout : num)
    (use_gpu : bool) (category_names_file : option string) : result Classifier :=
  cfg ← make_config architecture dropout epochs hidden_units learning_rate output_units;
  dirs ← _get_data_directories data_dir;
  let tfs := _get_data_transforms in
  sets ← _get_image_datasets dirs tfs;
  loaders ← _get_data_loaders sets;
  let self := {| config := cfg; criterion := NLLLoss; data_dirs := dirs;
                 data_transforms := tfs; data_sets := sets; data_loaders := loaders;
                 model := None; optimizer := None |} in
  match _initialize_network self with
  | (self, Ok _) => Ok self
  | (_, Raise e) => Raise e
  end.

(** [forward] calls [self.forward(features)]: every call pushes a frame, and
    the interpreter raises [RecursionError] when [frames] of them are
    exhausted.  The result comes with the calls made, in order. *)
Fixpoint forward (frames : nat) (self : Classifier) (features : Tensor)
  : list call * result Tensor :=
  match frames with
  | O => ([], Raise (RecursionError "maximum recursion depth exceeded"))
  | S frames =>
      let '(calls, r) := forward frames self features in
      (SelfForward :: calls, r)
  end.

End WithEnv.

(** ** A sample run

    A registry holding one architecture whose classification sub-module
    starts with a linear layer of input width [width], a filesystem where
    [present] tells which directories exist, one image per split, and layer
    constructors that accept every argument. *)

Definition sample_pretrained (width : Z) : Module :=
  mkModule (OtherLayer "VGG") []
    [("features",
      new_Sequential
        [mkModule (OtherLayer "Conv2d")
           [("weight", fresh 1 [64; 3; 3; 3]); ("bias", fresh 2 [64])] [];
         mkModule ReLU [] [];
         mkModule (OtherLayer "MaxPool2d") [] []]);
     ("avgpool", mkModule (OtherLayer "AdaptiveAvgPool2d") [] []);
     ("classifier",
      new_Sequential
        [new_Linear 3 width 4096;
         mkModule ReLU [] [];
         mkModule (Dropout (VFloat (float_literal 5 1))) [] [];
         new_Linear 5 4096 1000])].

Definition sample_env (present : string -> bool) (width : Z) : Env :=
  {| isdir := present;
     models := fun name =>
       if String.eqb name "vgg16" then Some (Ok (sample_pretrained width)) else None;
     find_images := fun dir => Ok (["daisy"], [((dir ++ "/daisy/image_1.jpg")%string, 0%nat)]);
     linear_check := fun _ _ => None;
     dropout_check := fun _ => None;
     adam_check := fun _ _ => None;
     size_error := fun _ => "an integer is required";
     next_id := 100 |}.

Definition everywhere (dir : string) : bool := true.
Definition all_but (missing dir : string) : bool := negb (String.eqb dir missing).

(** The default arguments of [__init__] other than [data_dir]. *)
Definition default_init (env : Env) (data_dir : option string) : result Classifier :=
  __init__ env data_dir (Int 102) "vgg16" (Int 1) (Int 512)
    (Float (float_literal 1 3)) (Float (float_literal 2 1)) true None.

(** ** Notions the statements use *)

Definition frozen (p : Param) : Prop := requires_grad p = false.
Definition trainable (p : Param) : Prop := requires_grad p = true.

(** The identity of the first parameter of the head [_get_model] builds
    on a pre-trained model. *)
Definition head_ident (env : Env) (pretrained : Module) : Z :=
  fresh_ident (next_id env) (parameters (freeze pretrained)).

(** The head [_get_model] defines: linear, rectifier, dropout, linear,
    log-softmax over dimension 1; its four parameters are the objects
    [id] to [id + 3]. *)
Definition custom_classifier (id : Z) (input_units hidden_units : Z) (dropout : val)
    (output_units : Z) : Module :=
  new_Sequential
    [new_Linear id input_units hidden_units;
     mkModule ReLU [] [];
     mkModule (Dropout dropout) [] [];
     new_Linear (id + 2) hidden_units output_units;
     mkModule (LogSoftmax 1) [] []].

(** The linear layers among the children of a module, in order, each as
    (input width, output width). *)
Definition linear_layers (m : Module) : list (Z * Z) :=
  List.flat_map
    (fun nc => match kind_of (snd nc) with
               | Linear i o => [(i, o)]
               | _ => []
               end)
    (children_of m).

(** The width the spec asks to be read off the selected architecture: the
    input width of the first linear layer of its classification sub-module. *)
Definition introspected_width (pretrained : Module) : option Z :=
  c ← assoc (children_of pretrained) "classifier";
  fst <$> head (linear_layers c).

(** The model without its head. *)
Definition extractor (m : Module) : Module :=
  match m with
  | mkModule k ps cs => mkModule k ps (remove_key "classifier" cs)
  end.

Definition splits : list string := ["test"; "train"; "valid"].

(** [needle] occurs in [hay]. *)
Definition occurs_in (needle hay : string) : Prop :=
  exists before after, hay = (before ++ needle ++ after)%string.

(** The operations drawn at random each time they are applied. *)
Definition randomized (t : Transform) : bool :=
  match t with
  | RandomRotation _ | RandomResizedCrop _ | RandomHorizontalFlip => true
  | _ => false
  end.

Definition is_normalize (t : Transform) : bool :=
  match t with Normalize _ _ => true | _ => false end.

Definition imagenet_mean : list spec_float :=
  [float_literal 485 3; float_literal 456 3; float_literal 406 3].
Definition imagenet_std : list spec_float :=
  [float_literal 229 3; float_literal 224 3; float_literal 225 3].

(** How many times a run reached the composed model's forward path. *)
Definition model_calls (calls : list call) : nat :=
  length (List.filter (fun c => match c with ModelForward => true | SelfForward => false end)
            calls).

Definition config_keys : list string :=
  ["architecture"; "dropout"; "epochs"; "hidden_units"; "learning_rate";
   "input_units"; "output_units"].

(** ** Sample objects *)

(** An object before [_initialize_network] has run on it. *)
Definition blank (cfg : gmap string val) : Classifier :=
  {| config := cfg; criterion := NLLLoss; data_dirs := [];
     data_transforms := ∅; data_sets := ∅; data_loaders := ∅;
     model := None; optimizer := None |}.

(** A configuration record as a reloaded checkpoint may set it. *)
Definition reloaded_config : gmap string val :=
  <["output_units" := VInt 5]>
  (<["input_units" := VInt 1]>
  (<["learning_rate" := VFloat (float_literal 3 3)]>
  (<["hidden_units" := VInt 256]>
  (<["epochs" := VInt 4]>
  (<["dropout" := VFloat (float_literal 5 1)]>
  (<["architecture" := VStr "vgg16"]> ∅)))))).

(** The same record naming an architecture the sample registry lacks. *)
Definition unregistered_config : gmap string val :=
  <["architecture" := VStr "not_a_real_net"]> reloaded_config.

(** The object the default construction yields in the sample run. *)
Definition sample_object (width : Z) : Classifier :=
  match default_init (sample_env everywhere width) (Some "flowers") with
  | Ok obj => obj
  | Raise _ => blank ∅
  end.

(** The object [_initialize_network] leaves when run on the reloaded record. *)
Definition reinitialized : Classifier :=
  fst (_initialize_network (sample_env everywhere 25088) (blank reloaded_config)).

(** The record [__init__] builds from arguments of mixed numeric types. *)
Definition mixed_config : gmap string val :=
  <["output_units" := VInt 102]>
  (<["input_units" := VInt 1]>
  (<["learning_rate" := VFloat (float_of_Z 1)]>
  (<["hidden_units" := VInt 1]>
  (<["epochs" := VInt 3]>
  (<["dropout" := VFloat (float_of_Z 0)]>
  (<["architecture" := VStr "vgg16"]> ∅)))))).

(** ** Notions for the further properties *)

(** The directory of a split under a root that is a string. *)
Definition joined (root ds : string) : string :=
  match path_join (Some root) ds with
  | Ok dir => dir
  | Raise _ => ds
  end.

(** The number of scalars of a parameter, and of a list of parameters. *)
Definition numel (p : Param) : Z := List.fold_right Z.mul 1 (shape p).
Definition total_numel (ps : list Param) : Z :=
  List.fold_right Z.add 0 (List.map numel ps).

(** The sample run with an optimizer constructor that rejects every call. *)
Definition rejecting_env : Env :=
  {| isdir := everywhere;
     models := models (sample_env everywhere 25088);
     find_images := find_images (sample_env everywhere 25088);
     linear_check := fun _ _ => None;
     dropout_check := fun _ => None;
     adam_check := fun _ _ => Some (ValueError "Invalid learning rate");
     size_error := fun _ => "an integer is required";
     next_id := 100 |}.

(** The sample run with a train directory that cannot be enumerated. *)
Definition unreadable_env : Env :=
  {| isdir := everywhere;
     models := models (sample_env everywhere 25088);
     find_images := fun dir =>
       if String.eqb dir "flowers/train"
       then Raise (ExternalError "Found 0 files in subfolders of flowers/train")
       else find_images (sample_env everywhere 25088) dir;
     linear_check := fun _ _ => None;
     dropout_check := fun _ => None;
     adam_check := fun _ _ => None;
     size_error := fun _ => "an integer is required";
     next_id := 100 |}.

(** A registry whose only architecture has no [classifier] child. *)
Definition headless_pretrained : Module :=
  mkModule (OtherLayer "ResNet") []
    [("conv1", mkModule (OtherLayer "Conv2d") [("weight", fresh 1 [64; 3; 7; 7])] []);
     ("fc", new_Linear 2 512 1000)].

Definition headless_env : Env :=
  {| isdir := everywhere;
     models := fun name =>
       if String.eqb name "vgg16" then Some (Ok headless_pretrained) else None;
     find_images := find_images (sample_env everywhere 25088);
     linear_check := fun _ _ => None;
     dropout_check := fun _ => None;
     adam_check := fun _ _ => None;
     size_error := fun _ => "an integer is required";
     next_id := 100 |}.

(** The model [_get_model] builds from the reloaded record in the sample run. *)
Definition reloaded_model (env : Env) : Module :=
  match _get_model env (blank reloaded_config) with
  | Ok m => m
  | Raise _ => mkModule Sequential [] []
  end.

(** The object a rejected optimizer leaves behind on the reloaded record. *)
Definition half_initialized : Classifier :=
  fst (_initialize_network rejecting_env (blank reloaded_config)).

(** The keys [_initialize_network] reads from the configuration record. *)
Definition required_keys : list string :=
  ["architecture"; "input_units"; "hidden_units"; "dropout"; "output_units";
   "learning_rate"].

(** The sample registry as the namespace it is: beside the architecture
    [vgg16] it holds the sub-module [vgg], which cannot be called. *)
Definition namespace_env : Env :=
  {| isdir := everywhere;
     models := fun name =>
       if String.eqb name "vgg16" then Some (Ok (sample_pretrained 25088))
       else if String.eqb name "vgg"
            then Some (Raise (TypeError "'module' object is not callable"))
            else None;
     find_images := find_images (sample_env everywhere 25088);
     linear_check := fun _ _ => None;
     dropout_check := fun _ => None;
     adam_check := fun _ _ => None;
     size_error := fun _ => "an integer is required";
     next_id := 100 |}.

(** The reloaded record naming that sub-module. *)
Definition submodule_config : gmap string val :=
  <["architecture" := VStr "vgg"]> reloaded_config.

Ltac unfold_bind := unfold mbind, result_bind, Py.bind in *.

(** Case analysis on every step of a computation known to have a result. *)
Ltac invert_result :=
  unfold_bind; repeat (case_match; simplify_eq).

(** ** Sanity checks of the embedding *)

Example float_literal_fifth :
  float_literal 2 1 = S754_finite false 7205759403792794 (-55).
Proof. vm_compute. reflexivity. Qed.

Example int_of_float_trunc :
  int (Float (float_literal 379 2)) = Ok 3 /\
  int (Float (SFopp (float_literal 379 2))) = Ok (-3).
Proof. vm_compute. auto. Qed.

Example sequential_names :
  List.map fst (children_of (new_Sequential [new_Linear 7 1 2; mkModule ReLU [] [];
                                             new_Linear 9 2 3]))
  = ["0"; "1"; "2"].
Proof. reflexivity. Qed.

Example parameters_order :
  List.map shape (parameters (new_Sequential [new_Linear 7 1 2; mkModule ReLU [] [];
                                              new_Linear 9 2 3]))
  = [[2; 1]; [2]; [3; 2]; [3]].
Proof. reflexivity. Qed.

Example path_join_cases :
  path_join (Some "flowers") "test" = Ok "flowers/test" /\
  path_join (Some "flowers/") "test" = Ok "flowers/test" /\
  path_join (Some EmptyString) "test" = Ok "test" /\
  path_join None "test"
    = Raise (TypeError "expected str, bytes or os.PathLike object, not NoneType").
Proof. repeat split. Qed.

Example first_missing_split_is_named :
  _get_data_directories (sample_env (all_but "flowers/train") 25088) (Some "flowers")
  = Raise (NotADirectoryError
             ("Directory " ++ dquote ++ "flowers/train" ++ dquote
              ++ " does not exist for the " ++ dquote ++ "train" ++ dquote
              ++ " data set.")%string).
Proof. reflexivity. Qed.

Example forward_three_frames :
  forward 3 (blank reloaded_config) {| dims := [64; 3; 224; 224] |}
  = ([SelfForward; SelfForward; SelfForward],
     Raise (RecursionError "maximum recursion depth exceeded")).
Proof. reflexivity. Qed.

(** [float] and [int] raise only on an integer beyond the binary64 range
    and on a float that is infinite or not a number. *)
Lemma float_is_ok (x : num) :
  is_ok (float x)
  = match x with
    | Int z => match float_of_Z z with S754_infinity _ => false | _ => true end
    | _ => true
    end.
Proof. destruct x as [z|f|b]; simpl; [destruct (float_of_Z z)|..]; reflexivity. Qed.

Lemma int_is_ok (x : num) :
  is_ok (int x)
  = match x with
    | Float (S754_infinity _) | Float S754_nan => false
    | _ => true
    end.
Proof. destruct x as [z|[]|b]; reflexivity. Qed.

(** ** Properties of the model *)

Lemma Module_ind (P : Module -> Prop) :
  (forall k ps cs, Forall (fun nc => P (snd nc)) cs -> P (mkModule k ps cs)) ->
  forall m, P m.
Proof.
  intros step. fix IH 1. intros [k ps cs]. apply step.
  induction cs as [|nc cs IHcs]; constructor; [apply IH | exact IHcs].
Qed.

Lemma Forall_flat_map {A B : Type} (P : B -> Prop) (f : A -> list B) (l : list A) :
  Forall (fun a => Forall P (f a)) l -> Forall P (List.flat_map f l).
Proof.
  induction 1 as [|a l Ha _ IH]; simpl; [constructor | apply List.Forall_app; auto].
Qed.

Lemma freeze_frozen (m : Module) : Forall frozen (parameters (freeze m)).
Proof.
  induction m as [k ps cs IH] using Module_ind. simpl.
  apply List.Forall_app. split.
  - rewrite List.map_map. apply List.Forall_map.
    apply List.Forall_forall. intros np _. reflexivity.
  - apply Forall_flat_map. apply List.Forall_map. exact IH.
Qed.

Lemma filter_frozen (ps : list Param) :
  Forall frozen ps -> List.filter requires_grad ps = [].
Proof.
  induction 1 as [|p ps Hp _ IH]; simpl; [reflexivity|].
  unfold frozen in Hp. rewrite Hp. exact IH.
Qed.

Lemma filter_trainable (ps : list Param) :
  Forall trainable ps -> List.filter requires_grad ps = ps.
Proof.
  induction 1 as [|p ps Hp _ IH]; simpl; [reflexivity|].
  unfold trainable in Hp. rewrite Hp, IH. reflexivity.
Qed.

Lemma assoc_setitem {A : Type} (k : string) (v : A) (d : list (string * A)) :
  assoc (setitem k v d) k = Some v.
Proof.
  induction d as [|[k' v'] d IH]; simpl.
  - rewrite String.eqb_refl. reflexivity.
  - destruct (String.eqb k' k) eqn:E; simpl.
    + rewrite String.eqb_refl. reflexivity.
    + rewrite E. exact IH.
Qed.

(** Once every child of a module is frozen, attaching a head of trainable
    parameters leaves the head's parameters as the trainable ones. *)
Lemma filter_setitem (k : string) (head : Module) (cs : list (string * Module)) :
  Forall (fun nc => Forall frozen (parameters (snd nc))) cs ->
  Forall trainable (parameters head) ->
  List.filter requires_grad
    (List.flat_map (fun nc => parameters (snd nc)) (setitem k head cs))
  = parameters head.
Proof.
  intros Hcs Hhead.
  induction Hcs as [|[k' c] cs Hc Hrest IH]; simpl.
  - rewrite List.app_nil_r. apply filter_trainable, Hhead.
  - destruct (String.eqb k' k); simpl; rewrite List.filter_app.
    + rewrite (filter_trainable _ Hhead).
      rewrite (filter_frozen _ (Forall_flat_map _ _ _ Hrest)).
      apply List.app_nil_r.
    + simpl in Hc. rewrite (filter_frozen _ Hc). exact IH.
Qed.

Lemma children_frozen (m : Module) :
  Forall (fun nc => Forall frozen (parameters (snd nc))) (children_of (freeze m)).
Proof.
  destruct m as [k ps cs]. simpl. apply List.Forall_map.
  apply List.Forall_forall. intros nc _. simpl. apply freeze_frozen.
Qed.

Lemma own_frozen (m : Module) : Forall frozen (List.map snd (own_of (freeze m))).
Proof.
  destruct m as [k ps cs]. simpl. rewrite List.map_map. apply List.Forall_map.
  apply List.Forall_forall. intros np _. reflexivity.
Qed.

Lemma trainable_after_attach (name : string) (head m : Module) :
  Forall trainable (parameters head) ->
  List.filter requires_grad (parameters (register_module name head (freeze m)))
  = parameters head.
Proof.
  intros Hhead.
  pose proof (children_frozen m) as Hcs. pose proof (own_frozen m) as Hps.
  destruct (freeze m) as [k ps cs]. simpl in *.
  rewrite List.filter_app, (filter_frozen _ Hps).
  simpl. apply filter_setitem; assumption.
Qed.

Lemma custom_classifier_trainable id i h d o :
  Forall trainable (parameters (custom_classifier id i h d o)).
Proof. repeat constructor. Qed.

(** Freezing keeps the names of a module's own parameters. *)
Lemma own_freeze_absent (k : string) (m : Module) :
  assoc (own_of (freeze m)) k = None <-> assoc (own_of m) k = None.
Proof.
  destruct m as [kd ps cs]. simpl.
  induction ps as [|[k0 p] ps IH]; simpl; [tauto|].
  destruct (String.eqb k0 k); [split; discriminate | exact IH].
Qed.

(** The attribute assignment succeeds exactly when no own parameter has
    the name. *)
Lemma set_submodule_Ok (name : string) (head m attached : Module) :
  set_submodule name head m = Ok attached <->
  assoc (own_of m) name = None /\ attached = register_module name head m.
Proof.
  unfold set_submodule. destruct (assoc (own_of m) name); split.
  - discriminate.
  - intros [H _]. discriminate H.
  - intros H. injection H as <-. auto.
  - intros [_ ->]. reflexivity.
Qed.

(** ** What the model steps do when they succeed *)

Section Properties.

Context (env : Env).

(** What a successful [_get_model] has done. *)
Lemma _get_model_Ok (self : Classifier) (m : Module) :
  _get_model env self = Ok m ->
  exists name pretrained i h d o,
    config self !! "architecture" = Some (VStr name) /\
    models env name = Some (Ok pretrained) /\
    config self !! "input_units" = Some (VInt i) /\
    config self !! "hidden_units" = Some (VInt h) /\
    config self !! "dropout" = Some d /\
    config self !! "output_units" = Some (VInt o) /\
    m = register_module "classifier"
          (custom_classifier (head_ident env pretrained) i h d o) (freeze pretrained).
Proof.
  unfold _get_model, nn_Linear, nn_Dropout, set_submodule, getitem, as_int, check.
  intros H. invert_result.
  repeat eexists; eauto.
Qed.

(** A successful [_get_model] started from a pre-trained model without a
    parameter of its own called [classifier]. *)
Lemma _get_model_no_clash (self : Classifier) (m pretrained : Module) (name : string) :
  _get_model env self = Ok m ->
  config self !! "architecture" = Some (VStr name) ->
  models env name = Some (Ok pretrained) ->
  assoc (own_of pretrained) "classifier" = None.
Proof.
  unfold _get_model, nn_Linear, nn_Dropout, set_submodule, getitem, as_int, check.
  intros H Ha Hpre. rewrite Ha in H. unfold_bind. rewrite Hpre in H.
  apply (own_freeze_absent "classifier" pretrained).
  destruct (assoc (own_of (freeze pretrained)) "classifier"); [|reflexivity].
  exfalso. repeat (case_match; simplify_eq).
Qed.

Lemma get_submodule_set (name : string) (head m : Module) :
  get_submodule name (register_module name head m) = Ok head.
Proof.
  destruct m as [k ps cs]. unfold get_submodule. simpl.
  rewrite assoc_setitem. reflexivity.
Qed.

(** What a successful [_initialize_network] has done. *)
Lemma _initialize_network_Ok (self self' : Classifier) :
  _initialize_network env self = (self', Ok tt) ->
  exists m clr rate,
    _get_model env self = Ok m /\
    get_submodule "classifier" m = Ok clr /\
    config self !! "learning_rate" = Some rate /\
    self' = set_optimizer (set_model self m)
              {| method := Adam; params := parameters clr; lr := rate |}.
Proof.
  unfold _initialize_network, optim_Adam, getitem, check.
  intros H. invert_result.
  repeat eexists; eauto.
Qed.

End Properties.

Section Construction.

Context (env : Env).

Lemma make_config_Ok architecture dropout epochs hidden_units learning_rate output_units cfg :
  make_config architecture dropout epochs hidden_units learning_rate output_units = Ok cfg ->
  exists d e h l o,
    float dropout = Ok d /\ int epochs = Ok e /\ int hidden_units = Ok h /\
    float learning_rate = Ok l /\ int output_units = Ok o /\
    cfg = <["output_units" := VInt o]>
          (<["input_units" := VInt 1]>
          (<["learning_rate" := VFloat l]>
          (<["hidden_units" := VInt h]>
          (<["epochs" := VInt e]>
          (<["dropout" := VFloat d]>
          (<["architecture" := VStr architecture]> ∅)))))).
Proof.
  unfold make_config. intros H. invert_result.
  repeat eexists; eauto.
Qed.

(** What a successful construction has done, stage by stage. *)
Lemma __init___Ok data_dir output_units architecture epochs hidden_units
    learning_rate dropout use_gpu category_names_file obj :
  __init__ env data_dir output_units architecture epochs hidden_units
    learning_rate dropout use_gpu category_names_file = Ok obj ->
  exists cfg dirs sets loaders,
    make_config architecture dropout epochs hidden_units learning_rate output_units = Ok cfg /\
    _get_data_directories env data_dir = Ok dirs /\
    _get_image_datasets env dirs _get_data_transforms = Ok sets /\
    _get_data_loaders sets = Ok loaders /\
    _initialize_network env
      {| config := cfg; criterion := NLLLoss; data_dirs := dirs;
         data_transforms := _get_data_transforms; data_sets := sets;
         data_loaders := loaders; model := None; optimizer := None |} = (obj, Ok tt).
Proof.
  unfold __init__. intros H. unfold_bind.
  destruct (make_config _ _ _ _ _ _) as [cfg|] eqn:Ecfg; [|discriminate].
  destruct (_get_data_directories _ _) as [dirs|] eqn:Edirs; [|discriminate].
  destruct (_get_image_datasets _ _ _) as [sets|] eqn:Esets; [|discriminate].
  destruct (_get_data_loaders _) as [loaders|] eqn:Eloaders; [|discriminate].
  destruct (_initialize_network _ _) as [self [[]|]] eqn:Enet; [|discriminate].
  injection H as ->. exists cfg, dirs, sets, loaders. repeat split; assumption.
Qed.

Lemma config_lookups architecture d e h l o :
  let cfg : gmap string val :=
    <["output_units" := VInt o]>
    (<["input_units" := VInt 1]>
    (<["learning_rate" := VFloat l]>
    (<["hidden_units" := VInt h]>
    (<["epochs" := VInt e]>
    (<["dropout" := VFloat d]>
    (<["architecture" := VStr architecture]> ∅)))))) in
  cfg !! "architecture" = Some (VStr architecture) /\
  cfg !! "dropout" = Some (VFloat d) /\
  cfg !! "epochs" = Some (VInt e) /\
  cfg !! "hidden_units" = Some (VInt h) /\
  cfg !! "learning_rate" = Some (VFloat l) /\
  cfg !! "input_units" = Some (VInt 1) /\
  cfg !! "output_units" = Some (VInt o).
Proof. repeat split; reflexivity. Qed.

End Construction.

Lemma remove_key_setitem {A : Type} (k : string) (v : A) (d : list (string * A)) :
  remove_key k (setitem k v d) = remove_key k d.
Proof.
  induction d as [|[k' v'] d IH]; simpl.
  - rewrite String.eqb_refl. reflexivity.
  - destruct (String.eqb k' k) eqn:E; simpl.
    + rewrite String.eqb_refl. reflexivity.
    + rewrite E, IH. reflexivity.
Qed.

Lemma remove_key_Forall {A : Type} (P : string * A -> Prop) (k : string) (d : list (string * A)) :
  Forall P d -> Forall P (remove_key k d).
Proof.
  induction 1 as [|[k' v] d Hv _ IH]; simpl; [constructor|].
  destruct (String.eqb k' k); [exact IH | constructor; assumption].
Qed.

Lemma extractor_frozen (head m : Module) :
  Forall frozen (parameters (extractor (register_module "classifier" head (freeze m)))).
Proof.
  pose proof (children_frozen m) as Hcs. pose proof (own_frozen m) as Hps.
  destruct (freeze m) as [k ps cs]. simpl in *.
  apply List.Forall_app. split.
  - exact Hps.
  - rewrite remove_key_setitem. apply Forall_flat_map.
    apply remove_key_Forall, Hcs.
Qed.

Lemma freeze_shapes (m : Module) :
  List.map shape (parameters (freeze m)) = List.map shape (parameters m).
Proof.
  induction m as [k ps cs IH] using Module_ind. simpl.
  rewrite !List.map_app. f_equal.
  - rewrite !List.map_map. reflexivity.
  - induction IH as [|nc cs Hc _ IHcs]; simpl; [reflexivity|].
    rewrite !List.map_app, Hc, IHcs. reflexivity.
Qed.

Lemma assoc_setitem_ne {A : Type} (k k' : string) (v : A) (d : list (string * A)) :
  k' <> k -> assoc (setitem k v d) k' = assoc d k'.
Proof.
  intros Hne. induction d as [|[k0 v0] d IH]; simpl.
  - destruct (String.eqb_spec k k'); [congruence | reflexivity].
  - destruct (String.eqb_spec k0 k) as [->|Hk]; simpl.
    + destruct (String.eqb_spec k k'); [congruence | reflexivity].
    + destruct (String.eqb k0 k'); [reflexivity | exact IH].
Qed.

Lemma assoc_freeze (k : string) (cs : list (string * Module)) :
  assoc (List.map (fun nc => (fst nc, freeze (snd nc))) cs) k = freeze <$> assoc cs k.
Proof.
  induction cs as [|[k0 c] cs IH]; simpl; [reflexivity|].
  destruct (String.eqb k0 k); [reflexivity | exact IH].
Qed.

Lemma remove_key_absent {A : Type} (k : string) (d : list (string * A)) :
  assoc d k = None -> remove_key k d = d.
Proof.
  induction d as [|[k0 v] d IH]; simpl; [reflexivity|].
  destruct (String.eqb k0 k); [discriminate|]. intros H. rewrite (IH H). reflexivity.
Qed.

Lemma setitem_absent {A : Type} (k : string) (v : A) (d : list (string * A)) :
  assoc d k = None -> setitem k v d = (d ++ [(k, v)])%list.
Proof.
  induction d as [|[k0 v0] d IH]; simpl; [reflexivity|].
  destruct (String.eqb k0 k); [discriminate|]. intros H. rewrite (IH H). reflexivity.
Qed.

Lemma setitem_names_present {A : Type} (k : string) (v : A) (d : list (string * A)) :
  assoc d k <> None -> List.map fst (setitem k v d) = List.map fst d.
Proof.
  induction d as [|[k0 v0] d IH]; simpl; [congruence|].
  destruct (String.eqb_spec k0 k) as [->|Hk]; simpl; [reflexivity|].
  intros H. rewrite (IH H). reflexivity.
Qed.

Lemma freeze_names (m : Module) :
  List.map fst (children_of (freeze m)) = List.map fst (children_of m) /\
  List.map fst (own_of (freeze m)) = List.map fst (own_of m).
Proof. destruct m as [k ps cs]. simpl. rewrite !List.map_map. split; reflexivity. Qed.

Lemma remove_key_freeze (k : string) (cs : list (string * Module)) :
  remove_key k (List.map (fun nc => (fst nc, freeze (snd nc))) cs)
  = List.map (fun nc => (fst nc, freeze (snd nc))) (remove_key k cs).
Proof.
  induction cs as [|[k0 c] cs IH]; simpl; [reflexivity|].
  destruct (String.eqb k0 k); simpl; rewrite IH; reflexivity.
Qed.

Lemma freeze_idents (m : Module) :
  List.map ident (parameters (freeze m)) = List.map ident (parameters m).
Proof.
  induction m as [k ps cs IH] using Module_ind. simpl.
  rewrite !List.map_app. f_equal.
  - rewrite !List.map_map. reflexivity.
  - induction IH as [|nc cs Hc _ IHcs]; simpl; [reflexivity|].
    rewrite !List.map_app, Hc, IHcs. reflexivity.
Qed.

(** Outside the head, the model with the head attached is the frozen
    pre-trained model. *)
Lemma extractor_attach (head m : Module) :
  extractor (register_module "classifier" head (freeze m)) = freeze (extractor m).
Proof.
  destruct m as [k ps cs]. simpl.
  rewrite remove_key_setitem, remove_key_freeze. reflexivity.
Qed.

Lemma extractor_freeze (m : Module) : extractor (freeze m) = freeze (extractor m).
Proof. destruct m as [k ps cs]. simpl. rewrite remove_key_freeze. reflexivity. Qed.

Lemma fresh_ident_from (from : Z) (live : list Param) : from <= fresh_ident from live.
Proof. induction live as [|p live IH]; simpl; lia. Qed.

Lemma fresh_ident_above (from : Z) (live : list Param) (p : Param) :
  In p live -> ident p < fresh_ident from live.
Proof.
  induction live as [|q live IH]; simpl; [tauto|].
  intros [->|Hin]; [lia|]. specialize (IH Hin). lia.
Qed.

Lemma remove_key_parameters (k : string) (cs : list (string * Module)) (p : Param) :
  In p (List.flat_map (fun nc => parameters (snd nc)) (remove_key k cs)) ->
  In p (List.flat_map (fun nc => parameters (snd nc)) cs).
Proof.
  induction cs as [|[k0 c] cs IH]; simpl; [tauto|].
  destruct (String.eqb k0 k); simpl; rewrite ?List.in_app_iff; intuition.
Qed.

Lemma extractor_parameters (m : Module) (p : Param) :
  In p (parameters (extractor m)) -> In p (parameters m).
Proof.
  destruct m as [k ps cs]. simpl. rewrite !List.in_app_iff.
  intros [H|H]; [left; exact H | right; exact (remove_key_parameters _ _ _ H)].
Qed.

(** The four parameters of the head are distinct objects, none of which
    is a parameter the head was made fresh from. *)
Lemma custom_classifier_idents id i h d o :
  List.map ident (parameters (custom_classifier id i h d o)) = [id; id + 1; id + 2; id + 2 + 1].
Proof. reflexivity. Qed.

Section Claims.

Context (env : Env).

(** C7. After [_initialize_network] succeeds, at construction or on any
    later call, on whatever configuration: outside the head the model holds
    the parameters of the pre-trained model, the same objects with the same
    shapes, every one non-trainable; the head holds four new trainable
    parameters, distinct objects from those; the trainable parameters of the
    model are exactly the head's; and the optimizer is Adam over exactly the
    head's parameter objects with the configured learning rate. *)
Theorem only_head_trainable (self self' : Classifier) :
  _initialize_network env self = (self', Ok tt) ->
  exists name pretrained i h out m clr o,
    config self !! "architecture" = Some (VStr name) /\
    models env name = Some (Ok pretrained) /\
    config self !! "input_units" = Some (VInt i) /\
    config self !! "hidden_units" = Some (VInt h) /\
    config self !! "output_units" = Some (VInt out) /\
    model self' = Some m /\
    optimizer self' = Some o /\
    get_submodule "classifier" m = Ok clr /\
    List.map ident (parameters (extractor m))
      = List.map ident (parameters (extractor pretrained)) /\
    List.map shape (parameters (extractor m))
      = List.map shape (parameters (extractor pretrained)) /\
    Forall frozen (parameters (extractor m)) /\
    List.map shape (parameters clr) = [[h; i]; [h]; [out; h]; [out]] /\
    Forall trainable (parameters clr) /\
    List.NoDup (List.map ident (parameters clr)) /\
    (forall p q, In p (parameters clr) -> In q (parameters (extractor m)) ->
                 ident p <> ident q) /\
    List.filter requires_grad (parameters m) = parameters clr /\
    method o = Adam /\
    params o = parameters clr /\
    config self' !! "learning_rate" = Some (lr o).
Proof.
  intros H.
  destruct (_initialize_network_Ok env _ _ H) as (m & clr & rate & Hm & Hclr & Hrate & ->).
  destruct (_get_model_Ok env _ _ Hm)
    as (name & pre & i & h & d & o & Ha & Hpre & Hi & Hh & _ & Ho & ->).
  rewrite get_submodule_set in Hclr. injection Hclr as <-.
  exists name, pre, i, h, o. eexists _, _, _. simpl.
  do 5 (split; [assumption|]).
  split; [reflexivity|]. split; [reflexivity|].
  split; [apply get_submodule_set|].
  rewrite extractor_attach.
  split; [apply freeze_idents|].
  split; [apply freeze_shapes|].
  split; [apply freeze_frozen|].
  split; [reflexivity|].
  split; [apply custom_classifier_trainable|].
  split.
  { rewrite custom_classifier_idents. generalize (head_ident env pre). intros id.
    repeat (apply List.NoDup_cons; [unfold In; lia|]). apply List.NoDup_nil. }
  split.
  { intros p q Hp Hq.
    apply (List.in_map ident) in Hp. rewrite custom_classifier_idents in Hp.
    assert (ident q < head_ident env pre) as Hlt.
    { unfold head_ident. apply fresh_ident_above.
      rewrite <- extractor_freeze in Hq. exact (extractor_parameters _ _ Hq). }
    revert Hp Hlt. generalize (head_ident env pre). intros id Hp Hlt.
    unfold In in Hp. lia. }
  split; [apply trainable_after_attach, custom_classifier_trainable|].
  auto.
Qed.

(** The model a successful construction holds: the pre-trained model of the
    registry, frozen, with the head built from the configuration record, whose
    input-unit entry is the 1 of [__init__]. *)
Lemma constructed_model data_dir output_units architecture epochs
    hidden_units learning_rate dropout use_gpu category_names_file obj :
  __init__ env data_dir output_units architecture epochs hidden_units
    learning_rate dropout use_gpu category_names_file = Ok obj ->
  exists d h o pretrained,
    float dropout = Ok d /\ int hidden_units = Ok h /\ int output_units = Ok o /\
    models env architecture = Some (Ok pretrained) /\
    config obj !! "input_units" = Some (VInt 1) /\
    model obj = Some (register_module "classifier"
                        (custom_classifier (head_ident env pretrained) 1 h (VFloat d) o)
                        (freeze pretrained)).
Proof.
  intros H.
  destruct (__init___Ok env _ _ _ _ _ _ _ _ _ _ H)
    as (cfg & dirs & sets & loaders & Hcfg & _ & _ & _ & Hnet).
  destruct (make_config_Ok _ _ _ _ _ _ _ Hcfg)
    as (d & e & h & l & o & Hd & _ & Hh & _ & Ho & ->).
  destruct (_initialize_network_Ok env _ _ Hnet) as (m & clr & rate & Hm & _ & _ & ->).
  destruct (_get_model_Ok env _ _ Hm)
    as (name & pre & i' & h' & d' & o' & Ha' & Hpre & Hi' & Hh' & Hd' & Ho' & ->).
  simpl in Ha', Hi', Hh', Hd', Ho'.
  destruct (config_lookups architecture d e h l o) as (La & Ld & _ & Lh & _ & Li & Lo).
  simpl in La, Ld, Lh, Li, Lo.
  rewrite La in Ha'. rewrite Ld in Hd'. rewrite Li in Hi'. rewrite Lh in Hh'.
  rewrite Lo in Ho'. simplify_eq.
  do 4 eexists. simpl. repeat split; eauto.
Qed.

(** C1. The source never resolves the input-unit count: after every
    successful construction the configuration still holds the 1 written by
    [__init__], and the head's first linear layer has input width 1, whatever
    the selected architecture is. *)
Theorem input_units_stay_one data_dir output_units architecture epochs
    hidden_units learning_rate dropout use_gpu category_names_file obj :
  __init__ env data_dir output_units architecture epochs hidden_units
    learning_rate dropout use_gpu category_names_file = Ok obj ->
  config obj !! "input_units" = Some (VInt 1) /\
  exists m clr h o,
    model obj = Some m /\
    get_submodule "classifier" m = Ok clr /\
    linear_layers clr = [(1, h); (h, o)].
Proof.
  intros H.
  destruct (constructed_model _ _ _ _ _ _ _ _ _ _ H)
    as (d & h & o & pre & _ & _ & _ & _ & Hi & Hm).
  split; [exact Hi|].
  eexists _, _, h, o.
  split; [exact Hm|]. split; [apply get_submodule_set|]. reflexivity.
Qed.

(** C3. With architecture vgg16, 512 hidden units and 102 output units, a
    constructed head has the linear layers 1 -> 512 and 512 -> 102 followed
    by log-softmax: its output is 102 wide, but its first linear layer has
    input width 1, whatever width the registry's vgg16 has. *)
Theorem vgg16_head_widths data_dir epochs learning_rate dropout use_gpu
    category_names_file obj :
  __init__ env data_dir (Int 102) "vgg16" epochs (Int 512)
    learning_rate dropout use_gpu category_names_file = Ok obj ->
  exists m clr,
    model obj = Some m /\
    get_submodule "classifier" m = Ok clr /\
    linear_layers clr = [(1, 512); (512, 102)] /\
    fst <$> head (linear_layers clr) = Some 1 /\
    snd <$> last (linear_layers clr) = Some 102 /\
    kind_of ∘ snd <$> last (children_of clr) = Some (LogSoftmax 1).
Proof.
  intros H.
  destruct (constructed_model _ _ _ _ _ _ _ _ _ _ H)
    as (d & h & o & pre & _ & Hh & Ho & _ & _ & Hm).
  simpl in Hh, Ho. simplify_eq.
  eexists _, _.
  split; [exact Hm|]. split; [apply get_submodule_set|].
  repeat split.
Qed.

(** C6. The unknown-architecture error is raised only where the attribute
    lookup fails.  For a name that is an attribute of [torchvision.models]
    but whose call raises (a sub-module such as [vgg], a class such as
    [VGG]), the call stands outside the [try]: [_get_model] raises the error
    of the call instead of the unknown-architecture error; no model is built
    and [_initialize_network] leaves the object as it was. *)
Theorem attribute_call_error_escapes (name : string) (e : exc) :
  models env name = Some (Raise e) ->
  (forall self,
     config self !! "architecture" = Some (VStr name) ->
     _get_model env self = Raise e /\
     _initialize_network env self = (self, Raise e)) /\
  (forall data_dir output_units epochs hidden_units learning_rate dropout
          use_gpu category_names_file,
     __init__ env data_dir output_units name epochs hidden_units
       learning_rate dropout use_gpu category_names_file
     = (_ ← make_config name dropout epochs hidden_units learning_rate output_units;
        dirs ← _get_data_directories env data_dir;
        sets ← _get_image_datasets env dirs _get_data_transforms;
        _ ← _get_data_loaders sets;
        Raise e)).
Proof.
  intros Hname.
  assert (forall self, config self !! "architecture" = Some (VStr name) ->
                       _get_model env self = Raise e) as Hmodel.
  { intros self Ha. unfold _get_model. rewrite Ha. simpl. rewrite Hname. reflexivity. }
  split.
  - intros self Ha. split; [apply Hmodel, Ha|].
    unfold _initialize_network. rewrite (Hmodel self Ha). reflexivity.
  - intros. unfold __init__. unfold_bind.
    destruct (make_config _ _ _ _ _ _) as [cfg|] eqn:Hcfg; [|reflexivity].
    destruct (_get_data_directories _ _) as [dirs|]; [|reflexivity].
    destruct (_get_image_datasets _ _ _) as [sets|]; [|reflexivity].
    destruct (_get_data_loaders _) as [loaders|]; [|reflexivity].
    destruct (make_config_Ok _ _ _ _ _ _ _ Hcfg) as (d & e' & h & l & o & _ & _ & _ & _ & _ & ->).
    unfold _initialize_network. rewrite Hmodel; [reflexivity|].
    apply config_lookups.
Qed.

(** X16. For a name [torchvision.models] has no attribute for, [_get_model]
    raises [ValueError] with the unknown-architecture message,
    [_initialize_network] leaves the object as it was, and a construction
    that reaches the model stage ends with that error. *)
Theorem unknown_architecture_fails (name : string) :
  models env name = None ->
  let unknown : exc :=
    ValueError ("Unknown model architecture " ++ name ++ ".")%string in
  (forall self,
     config self !! "architecture" = Some (VStr name) ->
     _get_model env self = Raise unknown /\
     _initialize_network env self = (self, Raise unknown)) /\
  (forall data_dir output_units epochs hidden_units learning_rate dropout
          use_gpu category_names_file,
     __init__ env data_dir output_units name epochs hidden_units
       learning_rate dropout use_gpu category_names_file
     = (_ ← make_config name dropout epochs hidden_units learning_rate output_units;
        dirs ← _get_data_directories env data_dir;
        sets ← _get_image_datasets env dirs _get_data_transforms;
        _ ← _get_data_loaders sets;
        Raise unknown)).
Proof.
  intros Hname unknown.
  assert (forall self, config self !! "architecture" = Some (VStr name) ->
                       _get_model env self = Raise unknown) as Hmodel.
  { intros self Ha. unfold _get_model. rewrite Ha. simpl. rewrite Hname. reflexivity. }
  split.
  - intros self Ha. split; [apply Hmodel, Ha|].
    unfold _initialize_network. rewrite (Hmodel self Ha). reflexivity.
  - intros. unfold __init__. unfold_bind.
    destruct (make_config _ _ _ _ _ _) as [cfg|] eqn:Hcfg; [|reflexivity].
    destruct (_get_data_directories _ _) as [dirs|]; [|reflexivity].
    destruct (_get_image_datasets _ _ _) as [sets|]; [|reflexivity].
    destruct (_get_data_loaders _) as [loaders|]; [|reflexivity].
    destruct (make_config_Ok _ _ _ _ _ _ _ Hcfg) as (d & e & h & l & o & _ & _ & _ & _ & _ & ->).
    unfold _initialize_network. rewrite Hmodel; [reflexivity|].
    apply config_lookups.
Qed.

End Claims.

(** ** The data pipeline *)

Lemma string_app_assoc (a b c : string) : ((a ++ b) ++ c = a ++ b ++ c)%string.
Proof.
  induction a as [|x a IH]; [reflexivity|].
  change (String x ((a ++ b) ++ c) = String x (a ++ b ++ c))%string.
  rewrite IH. reflexivity.
Qed.

Lemma message_names_both (dir ds : string) :
  occurs_in dir (missing_directory_message dir ds) /\
  occurs_in ds (missing_directory_message dir ds).
Proof.
  unfold missing_directory_message. split.
  - exists ("Directory " ++ dquote)%string. eexists. reflexivity.
  - exists ("Directory " ++ dquote ++ dir ++ dquote ++ " does not exist for the " ++ dquote)%string.
    exists (dquote ++ " data set.")%string.
    rewrite !string_app_assoc. reflexivity.
Qed.

Lemma transforms_lookup :
  let mean := [float_literal 485 3; float_literal 456 3; float_literal 406 3] in
  let std := [float_literal 229 3; float_literal 224 3; float_literal 225 3] in
  _get_data_transforms !! "train"
    = Some {| transforms := [RandomRotation 30; RandomResizedCrop 224;
                             RandomHorizontalFlip; ToTensor] |} /\
  _get_data_transforms !! "valid"
    = Some {| transforms := [Resize 255; CenterCrop 224; ToTensor; Normalize mean std] |} /\
  _get_data_transforms !! "test"
    = Some {| transforms := [Resize 255; CenterCrop 224; ToTensor; Normalize mean std] |}.
Proof. repeat split; reflexivity. Qed.

Section Pipeline.

Context (env : Env).

(** The directory of a split under a root that is a string. *)
Lemma path_join_Some (root ds : string) :
  exists dir, path_join (Some root) ds = Ok dir.
Proof. eexists. reflexivity. Qed.

Lemma _get_data_directories_None :
  _get_data_directories env None
  = Raise (TypeError "expected str, bytes or os.PathLike object, not NoneType").
Proof. reflexivity. Qed.

(** The resolver returns exactly when the three directories exist. *)
Lemma _get_data_directories_Some (root test train valid : string) :
  path_join (Some root) "test" = Ok test ->
  path_join (Some root) "train" = Ok train ->
  path_join (Some root) "valid" = Ok valid ->
  _get_data_directories env (Some root)
  = if isdir env test then
      if isdir env train then
        if isdir env valid
        then Ok [("test", test); ("train", train); ("valid", valid)]
        else Raise (NotADirectoryError (missing_directory_message valid "valid"))
      else Raise (NotADirectoryError (missing_directory_message train "train"))
    else Raise (NotADirectoryError (missing_directory_message test "test")).
Proof.
  intros Ht Htr Hv. unfold _get_data_directories. rewrite Ht, Htr, Hv.
  unfold_bind. simpl.
  destruct (isdir env test); [|reflexivity].
  destruct (isdir env train); [|reflexivity].
  destruct (isdir env valid); reflexivity.
Qed.

Lemma _get_data_directories_Ok (data_dir : option string) dirs :
  _get_data_directories env data_dir = Ok dirs ->
  exists root test train valid,
    data_dir = Some root /\
    path_join (Some root) "test" = Ok test /\
    path_join (Some root) "train" = Ok train /\
    path_join (Some root) "valid" = Ok valid /\
    dirs = [("test", test); ("train", train); ("valid", valid)].
Proof.
  destruct data_dir as [root|]; [|discriminate].
  destruct (path_join_Some root "test") as [test Ht].
  destruct (path_join_Some root "train") as [train Htr].
  destruct (path_join_Some root "valid") as [valid Hv].
  rewrite (_get_data_directories_Some root _ _ _ Ht Htr Hv).
  intros H. exists root, test, train, valid.
  repeat case_match; simplify_eq. auto.
Qed.

Lemma _get_image_datasets_Ok (test train valid : string) sets :
  _get_image_datasets env [("test", test); ("train", train); ("valid", valid)]
    _get_data_transforms = Ok sets ->
  exists t_test t_train t_valid f_test f_train f_valid,
    _get_data_transforms !! "test" = Some t_test /\
    _get_data_transforms !! "train" = Some t_train /\
    _get_data_transforms !! "valid" = Some t_valid /\
    find_images env test = Ok f_test /\
    find_images env train = Ok f_train /\
    find_images env valid = Ok f_valid /\
    sets = <["valid" := {| root := valid; transform_of := t_valid;
                           classes := fst f_valid; samples := snd f_valid |}]>
           (<["train" := {| root := train; transform_of := t_train;
                            classes := fst f_train; samples := snd f_train |}]>
           (<["test" := {| root := test; transform_of := t_test;
                           classes := fst f_test; samples := snd f_test |}]> ∅)).
Proof.
  destruct transforms_lookup as (Ltrain & Lvalid & Ltest).
  unfold _get_image_datasets, new_ImageFolder. rewrite Ltrain, Lvalid, Ltest.
  change (assoc [("test", test); ("train", train); ("valid", valid)] "test") with (Some test).
  change (assoc [("test", test); ("train", train); ("valid", valid)] "train") with (Some train).
  change (assoc [("test", test); ("train", train); ("valid", valid)] "valid") with (Some valid).
  unfold getitem. unfold_bind. intros H.
  destruct (find_images env test) as [f_test|]; [|discriminate].
  destruct (find_images env train) as [f_train|]; [|discriminate].
  destruct (find_images env valid) as [f_valid|]; [|discriminate].
  injection H as <-. repeat eexists.
Qed.

Lemma _get_data_loaders_sets (test train valid : ImageFolder) :
  _get_data_loaders (<["valid" := valid]> (<["train" := train]> (<["test" := test]> ∅)))
  = Ok (<["valid" := new_DataLoader valid 64 false]>
        (<["train" := new_DataLoader train 64 true]>
        (<["test" := new_DataLoader test 64 false]> ∅))).
Proof. reflexivity. Qed.

End Pipeline.

Section MoreClaims.

Context (env : Env).

(** [_initialize_network] assigns [model] and [optimizer] only. *)
Lemma _initialize_network_keeps (self : Classifier) :
  let self' := fst (_initialize_network env self) in
  config self' = config self /\
  criterion self' = criterion self /\
  data_dirs self' = data_dirs self /\
  data_transforms self' = data_transforms self /\
  data_sets self' = data_sets self /\
  data_loaders self' = data_loaders self.
Proof.
  unfold _initialize_network.
  destruct (_get_model env self) as [m|e]; simpl; [|auto 10].
  match goal with |- context [match ?r with Ok _ => _ | Raise _ => _ end] =>
    destruct r end; simpl; auto 10.
Qed.

(** C2. [forward] delegates to itself: with any number of frames left it
    makes that many calls to itself and none to the composed model, and it
    ends with [RecursionError] instead of a batch of log-probabilities. *)
Theorem forward_only_calls_itself (frames : nat) (self : Classifier) (features : Tensor) :
  forward frames self features
  = (List.repeat SelfForward frames, Raise (RecursionError "maximum recursion depth exceeded"))
  /\ model_calls (fst (forward frames self features)) = 0%nat.
Proof.
  assert (forward frames self features
          = (List.repeat SelfForward frames,
             Raise (RecursionError "maximum recursion depth exceeded"))) as ->.
  { induction frames as [|n IH]; simpl; [reflexivity|]. rewrite IH. reflexivity. }
  split; [reflexivity|]. unfold model_calls. simpl.
  induction frames as [|n IH]; simpl; [reflexivity | exact IH].
Qed.

(** C4. With the data root omitted, [path.join(None, 'test')] raises: once
    the configuration record is built, construction ends with [TypeError],
    so it never yields an object. *)
Theorem no_object_without_data_dir output_units architecture epochs hidden_units
    learning_rate dropout use_gpu category_names_file :
  __init__ env None output_units architecture epochs hidden_units
    learning_rate dropout use_gpu category_names_file
  = (_ ← make_config architecture dropout epochs hidden_units learning_rate output_units;
     Raise (TypeError "expected str, bytes or os.PathLike object, not NoneType")).
Proof.
  unfold __init__. unfold_bind.
  destruct (make_config _ _ _ _ _ _); reflexivity.
Qed.

(** C9. The transform builder returns three pipelines: train is the three
    randomized augmentations followed by tensor conversion (and holds no
    normalization); valid and test are resize to 255, center crop to 224,
    tensor conversion and normalization with the ImageNet means and
    standard deviations. *)
Theorem transform_pipelines :
  dom _get_data_transforms = list_to_set ["train"; "valid"; "test"] /\
  (exists augmentation,
     _get_data_transforms !! "train"
       = Some {| transforms := augmentation ++ [ToTensor] |} /\
     augmentation = [RandomRotation 30; RandomResizedCrop 224; RandomHorizontalFlip] /\
     forallb randomized augmentation = true /\
     existsb is_normalize (augmentation ++ [ToTensor]) = false) /\
  (let fixed := [Resize 255; CenterCrop 224; ToTensor;
                 Normalize imagenet_mean imagenet_std] in
   _get_data_transforms !! "valid" = Some {| transforms := fixed |} /\
   _get_data_transforms !! "test" = Some {| transforms := fixed |} /\
   existsb randomized fixed = false).
Proof.
  split; [|split].
  - unfold _get_data_transforms. rewrite !dom_insert_L, dom_empty_L. set_solver.
  - destruct transforms_lookup as (Ltrain & _ & _).
    exists [RandomRotation 30; RandomResizedCrop 224; RandomHorizontalFlip].
    split; [exact Ltrain|]. repeat split.
  - destruct transforms_lookup as (_ & Lvalid & Ltest). repeat split; assumption.
Qed.

(** C10. Whenever the configuration record is built, it holds exactly the
    seven keys; dropout and learning_rate are the arguments converted by
    [float], epochs, hidden_units and output_units the arguments converted
    by [int], whatever numeric type was passed; a constructed object carries
    that record, and [_initialize_network] never changes it. *)
Theorem config_shape architecture dropout epochs hidden_units learning_rate
    output_units (cfg : gmap string val) :
  make_config architecture dropout epochs hidden_units learning_rate output_units = Ok cfg ->
  dom cfg = list_to_set config_keys /\
  (exists d e h l i o,
     float dropout = Ok d /\ int epochs = Ok e /\ int hidden_units = Ok h /\
     float learning_rate = Ok l /\ int output_units = Ok o /\
     cfg !! "architecture" = Some (VStr architecture) /\
     cfg !! "dropout" = Some (VFloat d) /\
     cfg !! "epochs" = Some (VInt e) /\
     cfg !! "hidden_units" = Some (VInt h) /\
     cfg !! "learning_rate" = Some (VFloat l) /\
     cfg !! "input_units" = Some (VInt i) /\
     cfg !! "output_units" = Some (VInt o)) /\
  (forall data_dir use_gpu category_names_file obj,
     __init__ env data_dir output_units architecture epochs hidden_units
       learning_rate dropout use_gpu category_names_file = Ok obj ->
     config obj = cfg) /\
  (forall self, config self = cfg -> config (fst (_initialize_network env self)) = cfg).
Proof.
  intros Hcfg.
  destruct (make_config_Ok _ _ _ _ _ _ _ Hcfg)
    as (d & e & h & l & o & Hd & He & Hh & Hl & Ho & Heq).
  split; [|split; [|split]].
  - subst cfg. rewrite !dom_insert_L, dom_empty_L. unfold config_keys. set_solver.
  - exists d, e, h, l, 1, o. subst cfg.
    destruct (config_lookups architecture d e h l o) as (? & ? & ? & ? & ? & ? & ?).
    repeat split; assumption.
  - intros data_dir use_gpu category_names_file obj Hobj.
    destruct (__init___Ok env _ _ _ _ _ _ _ _ _ _ Hobj)
      as (cfg' & dirs & sets & loaders & Hcfg' & _ & _ & _ & Hnet).
    rewrite Hcfg in Hcfg'. injection Hcfg' as <-.
    pose proof (_initialize_network_keeps
                  {| config := cfg; criterion := NLLLoss; data_dirs := dirs;
                     data_transforms := _get_data_transforms; data_sets := sets;
                     data_loaders := loaders; model := None; optimizer := None |})
      as (Hkeep & _).
    rewrite Hnet in Hkeep. exact Hkeep.
  - intros self <-. apply _initialize_network_keeps.
Qed.

End MoreClaims.

Section DataClaims.

Context (env : Env).

(** C5. When one of the test, train and valid directories under the root is
    not a directory, the resolver raises [NotADirectoryError] for the first
    such split in that order, with a message containing the split's name and
    its path; [__init__] raises it as soon as the configuration record is
    built, before any dataset or model is made. *)
Theorem missing_split_fails (root : string) output_units architecture epochs
    hidden_units learning_rate dropout use_gpu category_names_file :
  (exists ds dir,
     In ds splits /\ path_join (Some root) ds = Ok dir /\ isdir env dir = false) ->
  exists ds dir,
    In ds splits /\ path_join (Some root) ds = Ok dir /\ isdir env dir = false /\
    occurs_in ds (missing_directory_message dir ds) /\
    occurs_in dir (missing_directory_message dir ds) /\
    _get_data_directories env (Some root)
      = Raise (NotADirectoryError (missing_directory_message dir ds)) /\
    __init__ env (Some root) output_units architecture epochs hidden_units
      learning_rate dropout use_gpu category_names_file
      = (_ ← make_config architecture dropout epochs hidden_units learning_rate output_units;
         Raise (NotADirectoryError (missing_directory_message dir ds))).
Proof.
  intros (ds0 & dir0 & Hin & Hjoin & Hmissing).
  destruct (path_join_Some root "test") as [test Ht].
  destruct (path_join_Some root "train") as [train Htr].
  destruct (path_join_Some root "valid") as [valid Hv].
  pose proof (_get_data_directories_Some env root _ _ _ Ht Htr Hv) as Hdirs.
  assert (forall ds dir,
            In ds splits -> path_join (Some root) ds = Ok dir -> isdir env dir = false ->
            _get_data_directories env (Some root)
              = Raise (NotADirectoryError (missing_directory_message dir ds)) ->
            exists ds dir,
              In ds splits /\ path_join (Some root) ds = Ok dir /\ isdir env dir = false /\
              occurs_in ds (missing_directory_message dir ds) /\
              occurs_in dir (missing_directory_message dir ds) /\
              _get_data_directories env (Some root)
                = Raise (NotADirectoryError (missing_directory_message dir ds)) /\
              __init__ env (Some root) output_units architecture epochs hidden_units
                learning_rate dropout use_gpu category_names_file
                = (_ ← make_config architecture dropout epochs hidden_units
                         learning_rate output_units;
                   Raise (NotADirectoryError (missing_directory_message dir ds))))
    as conclude.
  { intros ds dir Hds Hdir Hno Hraise. exists ds, dir.
    destruct (message_names_both dir ds) as [Hd Hs].
    repeat (split; [assumption|]).
    unfold __init__. rewrite Hraise. unfold_bind.
    destruct (make_config _ _ _ _ _ _); reflexivity. }
  destruct (isdir env test) eqn:Etest.
  - destruct (isdir env train) eqn:Etrain.
    + destruct (isdir env valid) eqn:Evalid.
      * exfalso. unfold splits in Hin. simpl in Hin.
        destruct Hin as [<-|[<-|[<-|[]]]]; congruence.
      * apply (conclude "valid" valid); unfold splits; simpl; auto.
    + apply (conclude "train" train); unfold splits; simpl; auto.
  - apply (conclude "test" test); unfold splits; simpl; auto.
Qed.

(** C8. After a successful construction there are exactly three datasets
    and three loaders, one per split: the dataset is the image folder of the
    split's directory under the root with the split's transform pipeline, and
    the loader wraps that dataset with batch size 64 and shuffles for train
    only. *)
Theorem loaders_per_split data_dir output_units architecture epochs hidden_units
    learning_rate dropout use_gpu category_names_file obj :
  __init__ env data_dir output_units architecture epochs hidden_units
    learning_rate dropout use_gpu category_names_file = Ok obj ->
  dom (data_sets obj) = list_to_set splits /\
  dom (data_loaders obj) = list_to_set splits /\
  forall split, In split splits ->
    exists dir pipeline ds,
      path_join data_dir split = Ok dir /\
      isdir env dir = true /\
      _get_data_transforms !! split = Some pipeline /\
      data_sets obj !! split = Some ds /\
      root ds = dir /\
      transform_of ds = pipeline /\
      find_images env dir = Ok (classes ds, samples ds) /\
      data_loaders obj !! split
        = Some {| dataset := ds; batch_size := 64; shuffle := String.eqb split "train" |}.
Proof.
  intros H.
  destruct (__init___Ok env _ _ _ _ _ _ _ _ _ _ H)
    as (cfg & dirs & sets & loaders & _ & Hdirs & Hsets & Hloaders & Hnet).
  pose proof (_initialize_network_keeps env
                {| config := cfg; criterion := NLLLoss; data_dirs := dirs;
                   data_transforms := _get_data_transforms; data_sets := sets;
                   data_loaders := loaders; model := None; optimizer := None |})
    as (_ & _ & _ & _ & Ksets & Kloaders).
  rewrite Hnet in Ksets, Kloaders. simpl in Ksets, Kloaders.
  rewrite Ksets, Kloaders. clear Hnet Ksets Kloaders H.
  destruct (_get_data_directories_Ok env _ _ Hdirs)
    as (root & test & train & valid & -> & Ht & Htr & Hv & ->).
  rewrite (_get_data_directories_Some env root _ _ _ Ht Htr Hv) in Hdirs.
  destruct (isdir env test) eqn:Etest; [|discriminate].
  destruct (isdir env train) eqn:Etrain; [|discriminate].
  destruct (isdir env valid) eqn:Evalid; [|discriminate].
  destruct (_get_image_datasets_Ok env _ _ _ _ Hsets)
    as (t_test & t_train & t_valid & [c_test s_test] & [c_train s_train] & [c_valid s_valid]
        & Ltest & Ltrain & Lvalid & Ftest & Ftrain & Fvalid & ->).
  rewrite _get_data_loaders_sets in Hloaders. injection Hloaders as <-.
  split; [|split].
  - rewrite !dom_insert_L, dom_empty_L. unfold splits. set_solver.
  - rewrite !dom_insert_L, dom_empty_L. unfold splits. set_solver.
  - intros split Hin. unfold splits in Hin. simpl in Hin.
    destruct Hin as [<-|[<-|[<-|[]]]];
      [eexists test, t_test, _ | eexists train, t_train, _ | eexists valid, t_valid, _];
      (do 3 (split; [assumption|])); (split; [reflexivity|]);
      simpl; repeat split; first [assumption | reflexivity].
Qed.

End DataClaims.

(** ** The sample run, evaluated *)

Lemma only_head_trainable_witness :
  _initialize_network (sample_env everywhere 25088) (blank reloaded_config)
    = (reinitialized, Ok tt) /\
  exists name pretrained i h out m clr o,
    config (blank reloaded_config) !! "architecture" = Some (VStr name) /\
    models (sample_env everywhere 25088) name = Some (Ok pretrained) /\
    config (blank reloaded_config) !! "input_units" = Some (VInt i) /\
    config (blank reloaded_config) !! "hidden_units" = Some (VInt h) /\
    config (blank reloaded_config) !! "output_units" = Some (VInt out) /\
    model reinitialized = Some m /\
    optimizer reinitialized = Some o /\
    get_submodule "classifier" m = Ok clr /\
    List.map ident (parameters (extractor m))
      = List.map ident (parameters (extractor pretrained)) /\
    List.map shape (parameters (extractor m))
      = List.map shape (parameters (extractor pretrained)) /\
    Forall frozen (parameters (extractor m)) /\
    List.map shape (parameters clr) = [[h; i]; [h]; [out; h]; [out]] /\
    Forall trainable (parameters clr) /\
    List.NoDup (List.map ident (parameters clr)) /\
    (forall p q, In p (parameters clr) -> In q (parameters (extractor m)) ->
                 ident p <> ident q) /\
    List.filter requires_grad (parameters m) = parameters clr /\
    method o = Adam /\
    params o = parameters clr /\
    config reinitialized !! "learning_rate" = Some (lr o).
Proof.
  assert (_initialize_network (sample_env everywhere 25088) (blank reloaded_config)
          = (reinitialized, Ok tt)) as H by (vm_compute; reflexivity).
  split; [exact H|].
  exact (only_head_trainable (sample_env everywhere 25088)
           (blank reloaded_config) reinitialized H).
Defined.

Lemma input_units_stay_one_witness :
  introspected_width (sample_pretrained 25088) = Some 25088 /\
  __init__ (sample_env everywhere 25088) (Some "flowers") (Int 102) "vgg16" (Int 1)
    (Int 512) (Float (float_literal 1 3)) (Float (float_literal 2 1)) true None
    = Ok (sample_object 25088) /\
  config (sample_object 25088) !! "input_units" = Some (VInt 1) /\
  exists m clr h o,
    model (sample_object 25088) = Some m /\
    get_submodule "classifier" m = Ok clr /\
    linear_layers clr = [(1, h); (h, o)].
Proof.
  assert (__init__ (sample_env everywhere 25088) (Some "flowers") (Int 102) "vgg16"
            (Int 1) (Int 512) (Float (float_literal 1 3)) (Float (float_literal 2 1))
            true None = Ok (sample_object 25088)) as H by (vm_compute; reflexivity).
  split; [vm_compute; reflexivity|].
  split; [exact H|].
  exact (input_units_stay_one (sample_env everywhere 25088) (Some "flowers") (Int 102)
           "vgg16" (Int 1) (Int 512) (Float (float_literal 1 3))
           (Float (float_literal 2 1)) true None (sample_object 25088) H).
Defined.

Lemma vgg16_head_widths_witness :
  introspected_width (sample_pretrained 4096) = Some 4096 /\
  __init__ (sample_env everywhere 4096) (Some "flowers") (Int 102) "vgg16" (Int 1)
    (Int 512) (Float (float_literal 1 3)) (Float (float_literal 2 1)) true None
    = Ok (sample_object 4096) /\
  exists m clr,
    model (sample_object 4096) = Some m /\
    get_submodule "classifier" m = Ok clr /\
    linear_layers clr = [(1, 512); (512, 102)] /\
    fst <$> head (linear_layers clr) = Some 1 /\
    snd <$> last (linear_layers clr) = Some 102 /\
    kind_of ∘ snd <$> last (children_of clr) = Some (LogSoftmax 1).
Proof.
  assert (__init__ (sample_env everywhere 4096) (Some "flowers") (Int 102) "vgg16"
            (Int 1) (Int 512) (Float (float_literal 1 3)) (Float (float_literal 2 1))
            true None = Ok (sample_object 4096)) as H by (vm_compute; reflexivity).
  split; [vm_compute; reflexivity|].
  split; [exact H|].
  exact (vgg16_head_widths (sample_env everywhere 4096) (Some "flowers") (Int 1)
           (Float (float_literal 1 3)) (Float (float_literal 2 1)) true None
           (sample_object 4096) H).
Defined.

Lemma missing_split_fails_witness :
  (exists ds dir,
     In ds splits /\ path_join (Some "flowers") ds = Ok dir /\
     isdir (sample_env (all_but "flowers/train") 25088) dir = false) /\
  exists ds dir,
    In ds splits /\ path_join (Some "flowers") ds = Ok dir /\
    isdir (sample_env (all_but "flowers/train") 25088) dir = false /\
    occurs_in ds (missing_directory_message dir ds) /\
    occurs_in dir (missing_directory_message dir ds) /\
    _get_data_directories (sample_env (all_but "flowers/train") 25088) (Some "flowers")
      = Raise (NotADirectoryError (missing_directory_message dir ds)) /\
    __init__ (sample_env (all_but "flowers/train") 25088) (Some "flowers") (Int 102)
      "vgg16" (Int 1) (Int 512) (Float (float_literal 1 3)) (Float (float_literal 2 1))
      true None
      = (_ ← make_config "vgg16" (Float (float_literal 2 1)) (Int 1) (Int 512)
               (Float (float_literal 1 3)) (Int 102);
         Raise (NotADirectoryError (missing_directory_message dir ds))).
Proof.
  assert (exists ds dir,
            In ds splits /\ path_join (Some "flowers") ds = Ok dir /\
            isdir (sample_env (all_but "flowers/train") 25088) dir = false) as H.
  { exists "train", "flowers/train".
    split; [right; left; reflexivity|]. split; reflexivity. }
  split; [exact H|].
  exact (missing_split_fails (sample_env (all_but "flowers/train") 25088) "flowers"
           (Int 102) "vgg16" (Int 1) (Int 512) (Float (float_literal 1 3))
           (Float (float_literal 2 1)) true None H).
Defined.

Lemma attribute_call_error_escapes_witness :
  models namespace_env "vgg" = Some (Raise (TypeError "'module' object is not callable")) /\
  _get_model namespace_env (blank submodule_config)
    = Raise (TypeError "'module' object is not callable") /\
  _initialize_network namespace_env (blank submodule_config)
    = (blank submodule_config, Raise (TypeError "'module' object is not callable")) /\
  _get_model namespace_env (blank submodule_config)
    <> Raise (ValueError "Unknown model architecture vgg.") /\
  __init__ namespace_env (Some "flowers") (Int 102) "vgg" (Int 1) (Int 512)
    (Float (float_literal 1 3)) (Float (float_literal 2 1)) true None
    = Raise (TypeError "'module' object is not callable").
Proof.
  assert (models namespace_env "vgg"
          = Some (Raise (TypeError "'module' object is not callable"))) as H
    by reflexivity.
  assert (config (blank submodule_config) !! "architecture" = Some (VStr "vgg")) as Hcfg
    by (vm_compute; reflexivity).
  destruct (proj1 (attribute_call_error_escapes namespace_env "vgg"
                     (TypeError "'module' object is not callable") H)
              (blank submodule_config) Hcfg) as [Hmodel Hnet].
  split; [exact H|]. split; [exact Hmodel|]. split; [exact Hnet|].
  split; [rewrite Hmodel; discriminate|].
  vm_compute. reflexivity.
Defined.

Lemma unknown_architecture_fails_witness :
  models (sample_env everywhere 25088) "not_a_real_net" = None /\
  _get_model (sample_env everywhere 25088) (blank unregistered_config)
    = Raise (ValueError "Unknown model architecture not_a_real_net.") /\
  _initialize_network (sample_env everywhere 25088) (blank unregistered_config)
    = (blank unregistered_config,
       Raise (ValueError "Unknown model architecture not_a_real_net.")).
Proof.
  assert (models (sample_env everywhere 25088) "not_a_real_net" = None) as H
    by reflexivity.
  assert (config (blank unregistered_config) !! "architecture"
          = Some (VStr "not_a_real_net")) as Hcfg by (vm_compute; reflexivity).
  split; [exact H|].
  exact (proj1 (unknown_architecture_fails (sample_env everywhere 25088)
                  "not_a_real_net" H)
           (blank unregistered_config) Hcfg).
Defined.

Lemma loaders_per_split_witness :
  __init__ (sample_env everywhere 25088) (Some "flowers") (Int 102) "vgg16" (Int 1)
    (Int 512) (Float (float_literal 1 3)) (Float (float_literal 2 1)) true None
    = Ok (sample_object 25088) /\
  dom (data_sets (sample_object 25088)) = list_to_set splits /\
  dom (data_loaders (sample_object 25088)) = list_to_set splits /\
  forall split, In split splits ->
    exists dir pipeline ds,
      path_join (Some "flowers") split = Ok dir /\
      isdir (sample_env everywhere 25088) dir = true /\
      _get_data_transforms !! split = Some pipeline /\
      data_sets (sample_object 25088) !! split = Some ds /\
      root ds = dir /\
      transform_of ds = pipeline /\
      find_images (sample_env everywhere 25088) dir = Ok (classes ds, samples ds) /\
      data_loaders (sample_object 25088) !! split
        = Some {| dataset := ds; batch_size := 64; shuffle := String.eqb split "train" |}.
Proof.
  assert (__init__ (sample_env everywhere 25088) (Some "flowers") (Int 102) "vgg16"
            (Int 1) (Int 512) (Float (float_literal 1 3)) (Float (float_literal 2 1))
            true None = Ok (sample_object 25088)) as H by (vm_compute; reflexivity).
  split; [exact H|].
  exact (loaders_per_split (sample_env everywhere 25088) (Some "flowers") (Int 102)
           "vgg16" (Int 1) (Int 512) (Float (float_literal 1 3))
           (Float (float_literal 2 1)) true None (sample_object 25088) H).
Defined.

Lemma config_shape_witness :
  make_config "vgg16" (Int 0) (Float (float_literal 379 2)) (Bool true) (Int 1)
    (Float (float_of_Z 102)) = Ok mixed_config /\
  dom mixed_config = list_to_set config_keys /\
  mixed_config !! "dropout" = Some (VFloat (float_of_Z 0)) /\
  mixed_config !! "epochs" = Some (VInt 3).
Proof.
  assert (make_config "vgg16" (Int 0) (Float (float_literal 379 2)) (Bool true) (Int 1)
            (Float (float_of_Z 102)) = Ok mixed_config) as H by (vm_compute; reflexivity).
  split; [exact H|].
  split; [|split; vm_compute; reflexivity].
  exact (proj1 (config_shape (sample_env everywhere 25088) "vgg16" (Int 0)
                  (Float (float_literal 379 2)) (Bool true) (Int 1)
                  (Float (float_of_Z 102)) mixed_config H)).
Defined.

(** ** Further properties of the data directory resolver *)

Lemma joined_Ok (root ds : string) : path_join (Some root) ds = Ok (joined root ds).
Proof. reflexivity. Qed.


Section Resolver.

Context (env : Env).

(** X1. The resolver reports the first split, in the order test, train,
    valid, whose directory does not exist, and returns the three
    directories in that order exactly when none is missing. *)
Theorem data_directories_first_missing (root : string) :
  _get_data_directories env (Some root)
  = match List.find (fun ds => negb (isdir env (joined root ds))) splits with
    | Some ds =>
        Raise (NotADirectoryError (missing_directory_message (joined root ds) ds))
    | None => Ok (List.map (fun ds => (ds, joined root ds)) splits)
    end.
Proof.
  rewrite (_get_data_directories_Some env root _ _ _
             (joined_Ok root "test") (joined_Ok root "train") (joined_Ok root "valid")).
  unfold splits. simpl.
  destruct (isdir env (joined root "test")); [|reflexivity].
  destruct (isdir env (joined root "train")); [|reflexivity].
  destruct (isdir env (joined root "valid")); reflexivity.
Qed.


End Resolver.


(** ** Further properties of the model builder *)

Section ModelBuilder.

Context (env : Env).

(** The pre-trained model a successful [_get_model] started from is the one
    the registry holds for the configured architecture. *)
Lemma _get_model_from (self : Classifier) (m pretrained : Module) (name : string) :
  _get_model env self = Ok m ->
  config self !! "architecture" = Some (VStr name) ->
  models env name = Some (Ok pretrained) ->
  exists i h d o,
    config self !! "input_units" = Some (VInt i) /\
    config self !! "hidden_units" = Some (VInt h) /\
    config self !! "dropout" = Some d /\
    config self !! "output_units" = Some (VInt o) /\
    m = register_module "classifier"
          (custom_classifier (head_ident env pretrained) i h d o) (freeze pretrained).
Proof.
  intros Hm Ha Hpre.
  destruct (_get_model_Ok env _ _ Hm)
    as (name' & pre' & i & h & d & o & Ha' & Hpre' & Hi & Hh & Hd & Ho & ->).
  rewrite Ha in Ha'. injection Ha' as <-.
  rewrite Hpre in Hpre'. injection Hpre' as <-.
  exists i, h, d, o. auto 10.
Qed.

(** X3. Every sub-module of the pre-trained model other than [classifier]
    is still reachable under its name after [_get_model], as the frozen
    copy of the original. *)
Theorem other_submodules_kept_frozen (self : Classifier) (m pretrained : Module)
    (name child : string) :
  _get_model env self = Ok m ->
  config self !! "architecture" = Some (VStr name) ->
  models env name = Some (Ok pretrained) ->
  child <> "classifier" ->
  assoc (children_of m) child = freeze <$> assoc (children_of pretrained) child.
Proof.
  intros Hm Ha Hpre Hchild.
  destruct (_get_model_from _ _ _ _ Hm Ha Hpre) as (i & h & d & o & _ & _ & _ & _ & ->).
  destruct pretrained as [k ps cs]. simpl.
  rewrite assoc_setitem_ne by exact Hchild. apply assoc_freeze.
Qed.

(** X4. Attaching the head keeps the names and the order of the children
    when the architecture has a [classifier] child; when it has none, the
    head is added as a new last child and every original child stays. *)
Theorem head_replaces_or_is_appended (self : Classifier) (m pretrained : Module)
    (name : string) :
  _get_model env self = Ok m ->
  config self !! "architecture" = Some (VStr name) ->
  models env name = Some (Ok pretrained) ->
  List.map fst (children_of m)
  = match assoc (children_of pretrained) "classifier" with
    | Some _ => List.map fst (children_of pretrained)
    | None => (List.map fst (children_of pretrained) ++ ["classifier"])%list
    end.
Proof.
  intros Hm Ha Hpre.
  destruct (_get_model_from _ _ _ _ Hm Ha Hpre) as (i & h & d & o & _ & _ & _ & _ & ->).
  destruct pretrained as [k ps cs]. simpl.
  pose proof (assoc_freeze "classifier" cs) as Hassoc.
  destruct (assoc cs "classifier") as [old|] eqn:Hold.
  - rewrite setitem_names_present by (rewrite Hassoc; discriminate).
    rewrite List.map_map. reflexivity.
  - rewrite setitem_absent by exact Hassoc.
    rewrite List.map_app, List.map_map. reflexivity.
Qed.

(** X5. For a pre-trained model without a parameter of its own called
    [classifier], the parameters outside the head keep their number, order
    and shapes: freezing and attaching the head only change the flags. *)
Theorem extractor_shapes_kept (self : Classifier) (m pretrained : Module)
    (name : string) :
  _get_model env self = Ok m ->
  config self !! "architecture" = Some (VStr name) ->
  models env name = Some (Ok pretrained) ->
  assoc (own_of pretrained) "classifier" = None ->
  List.map shape (parameters (extractor m))
  = List.map shape (parameters (extractor pretrained)).
Proof.
  intros Hm Ha Hpre Hown.
  destruct (_get_model_from _ _ _ _ Hm Ha Hpre) as (i & h & d & o & _ & _ & _ & _ & ->).
  rewrite extractor_attach. apply freeze_shapes.
Qed.

End ModelBuilder.

Lemma other_submodules_kept_frozen_witness :
  _get_model (sample_env everywhere 25088) (blank reloaded_config)
    = Ok (reloaded_model (sample_env everywhere 25088)) /\
  assoc (children_of (reloaded_model (sample_env everywhere 25088))) "features"
  = freeze <$> assoc (children_of (sample_pretrained 25088)) "features".
Proof.
  assert (_get_model (sample_env everywhere 25088) (blank reloaded_config)
          = Ok (reloaded_model (sample_env everywhere 25088))) as H
    by (vm_compute; reflexivity).
  assert (config (blank reloaded_config) !! "architecture" = Some (VStr "vgg16")) as Ha
    by (vm_compute; reflexivity).
  assert ("features" <> "classifier") as Hne by discriminate.
  split; [exact H|].
  exact (other_submodules_kept_frozen (sample_env everywhere 25088)
           (blank reloaded_config) (reloaded_model (sample_env everywhere 25088))
           (sample_pretrained 25088) "vgg16" "features" H Ha eq_refl Hne).
Defined.

Lemma head_replaces_or_is_appended_witness :
  _get_model headless_env (blank reloaded_config) = Ok (reloaded_model headless_env) /\
  List.map fst (children_of (reloaded_model headless_env)) = ["conv1"; "fc"; "classifier"].
Proof.
  assert (_get_model headless_env (blank reloaded_config)
          = Ok (reloaded_model headless_env)) as H by (vm_compute; reflexivity).
  assert (config (blank reloaded_config) !! "architecture" = Some (VStr "vgg16")) as Ha
    by (vm_compute; reflexivity).
  split; [exact H|].
  exact (head_replaces_or_is_appended headless_env (blank reloaded_config)
           (reloaded_model headless_env) headless_pretrained "vgg16" H Ha eq_refl).
Defined.

Lemma extractor_shapes_kept_witness :
  _get_model (sample_env everywhere 25088) (blank reloaded_config)
    = Ok (reloaded_model (sample_env everywhere 25088)) /\
  assoc (own_of (sample_pretrained 25088)) "classifier" = None /\
  List.map shape (parameters (extractor (reloaded_model (sample_env everywhere 25088))))
  = List.map shape (parameters (extractor (sample_pretrained 25088))).
Proof.
  assert (_get_model (sample_env everywhere 25088) (blank reloaded_config)
          = Ok (reloaded_model (sample_env everywhere 25088))) as H
    by (vm_compute; reflexivity).
  assert (config (blank reloaded_config) !! "architecture" = Some (VStr "vgg16")) as Ha
    by (vm_compute; reflexivity).
  split; [exact H|]. split; [reflexivity|].
  exact (extractor_shapes_kept (sample_env everywhere 25088)
           (blank reloaded_config) (reloaded_model (sample_env everywhere 25088))
           (sample_pretrained 25088) "vgg16" H Ha eq_refl eq_refl).
Defined.

(** ** Further properties of the initialization step *)

Section Initialization.

Context (env : Env).

(** X6. A successful [_initialize_network] builds the head from the record
    as it stands: the linear layers are input_units -> hidden_units and
    hidden_units -> output_units, and the optimizer holds
    input*hidden + hidden + hidden*output + output trainable scalars. *)
Theorem head_follows_config (self self' : Classifier) :
  _initialize_network env self = (self', Ok tt) ->
  exists i h o m clr opt,
    config self !! "input_units" = Some (VInt i) /\
    config self !! "hidden_units" = Some (VInt h) /\
    config self !! "output_units" = Some (VInt o) /\
    model self' = Some m /\
    get_submodule "classifier" m = Ok clr /\
    linear_layers clr = [(i, h); (h, o)] /\
    optimizer self' = Some opt /\
    List.map shape (params opt) = [[h; i]; [h]; [o; h]; [o]] /\
    total_numel (params opt) = i * h + h + h * o + o.
Proof.
  intros H.
  destruct (_initialize_network_Ok env _ _ H) as (m & clr & rate & Hm & Hclr & _ & ->).
  destruct (_get_model_Ok env _ _ Hm)
    as (name & pre & i & h & d & o & _ & _ & Hi & Hh & _ & Ho & ->).
  rewrite get_submodule_set in Hclr. injection Hclr as <-.
  eexists i, h, o, _, _, _. simpl.
  repeat (split; [first [eassumption | reflexivity | apply get_submodule_set]|]).
  unfold total_numel, numel. simpl. lia.
Qed.

(** X7. When [_initialize_network] raises, the optimizer is never touched:
    either [_get_model] raised and the object is as it was, or the
    optimizer constructor raised and the object holds the new model beside
    the previous optimizer. *)
Theorem failed_initialization_keeps_optimizer (self self' : Classifier) (e : exc) :
  _initialize_network env self = (self', Raise e) ->
  optimizer self' = optimizer self /\
  config self' = config self /\
  ((_get_model env self = Raise e /\ self' = self) \/
   (exists m, _get_model env self = Ok m /\ self' = set_model self m)).
Proof.
  unfold _initialize_network. intros H.
  destruct (_get_model env self) as [m|e'] eqn:Hm.
  - match type of H with
    | context [match ?r with Ok _ => _ | Raise _ => _ end] => destruct r
    end; [discriminate|].
    injection H as <- <-. split; [reflexivity|]. split; [reflexivity|].
    right. exists m. auto.
  - injection H as <- <-. auto.
Qed.

End Initialization.

Lemma head_follows_config_witness :
  _initialize_network (sample_env everywhere 25088) (blank reloaded_config)
    = (reinitialized, Ok tt) /\
  exists i h o m clr opt,
    config (blank reloaded_config) !! "input_units" = Some (VInt i) /\
    config (blank reloaded_config) !! "hidden_units" = Some (VInt h) /\
    config (blank reloaded_config) !! "output_units" = Some (VInt o) /\
    model reinitialized = Some m /\
    get_submodule "classifier" m = Ok clr /\
    linear_layers clr = [(i, h); (h, o)] /\
    optimizer reinitialized = Some opt /\
    List.map shape (params opt) = [[h; i]; [h]; [o; h]; [o]] /\
    total_numel (params opt) = i * h + h + h * o + o.
Proof.
  assert (_initialize_network (sample_env everywhere 25088) (blank reloaded_config)
          = (reinitialized, Ok tt)) as H by (vm_compute; reflexivity).
  split; [exact H|].
  exact (head_follows_config (sample_env everywhere 25088)
           (blank reloaded_config) reinitialized H).
Defined.

Lemma failed_initialization_keeps_optimizer_witness :
  _initialize_network rejecting_env (blank reloaded_config)
    = (half_initialized, Raise (ValueError "Invalid learning rate")) /\
  optimizer half_initialized = optimizer (blank reloaded_config) /\
  config half_initialized = config (blank reloaded_config) /\
  ((_get_model rejecting_env (blank reloaded_config)
      = Raise (ValueError "Invalid learning rate") /\
    half_initialized = blank reloaded_config) \/
   (exists m, _get_model rejecting_env (blank reloaded_config) = Ok m /\
              half_initialized = set_model (blank reloaded_config) m)).
Proof.
  assert (_initialize_network rejecting_env (blank reloaded_config)
          = (half_initialized, Raise (ValueError "Invalid learning rate"))) as H
    by (vm_compute; reflexivity).
  split; [exact H|].
  exact (failed_initialization_keeps_optimizer rejecting_env
           (blank reloaded_config) half_initialized
           (ValueError "Invalid learning rate") H).
Defined.

Section RequiredKeys.

Context (env : Env).

(** X10. [_initialize_network] cannot succeed on a record that lacks one of
    the six keys it reads; the epoch count is not among them. *)
Theorem missing_key_stops_initialization (self : Classifier) (k : string) :
  In k required_keys ->
  config self !! k = None ->
  exists e, snd (_initialize_network env self) = Raise e.
Proof.
  intros Hin Hk.
  destruct (_initialize_network env self) as [self' [[]|e]] eqn:H; [|exists e; reflexivity].
  exfalso.
  destruct (_initialize_network_Ok env _ _ H) as (m & clr & rate & Hm & _ & Hrate & _).
  destruct (_get_model_Ok env _ _ Hm)
    as (name & pre & i & h & d & o & Ha & _ & Hi & Hh & Hd & Ho & _).
  unfold required_keys in Hin. simpl in Hin.
  destruct Hin as [<-|[<-|[<-|[<-|[<-|[<-|[]]]]]]]; congruence.
Qed.

End RequiredKeys.

Lemma missing_key_stops_initialization_witness :
  In "dropout" required_keys /\
  config (blank (delete "dropout" reloaded_config)) !! "dropout" = None /\
  exists e,
    snd (_initialize_network (sample_env everywhere 25088)
           (blank (delete "dropout" reloaded_config))) = Raise e.
Proof.
  assert (In "dropout" required_keys) as Hin by (do 3 right; left; reflexivity).
  assert (config (blank (delete "dropout" reloaded_config)) !! "dropout" = None) as Hk
    by (vm_compute; reflexivity).
  split; [exact Hin|]. split; [exact Hk|].
  exact (missing_key_stops_initialization (sample_env everywhere 25088)
           (blank (delete "dropout" reloaded_config)) "dropout" Hin Hk).
Defined.

(** ** Further properties of the construction *)

Section ConstructionStages.

Context (env : Env).

(** The three enumerations run in the order test, train, valid, and the
    first one to raise ends [_get_image_datasets]. *)
Lemma _get_image_datasets_stages (test train valid : string) :
  _get_image_datasets env [("test", test); ("train", train); ("valid", valid)]
    _get_data_transforms
  = (f_test ← find_images env test;
     f_train ← find_images env train;
     f_valid ← find_images env valid;
     t_test ← getitem (_get_data_transforms !! "test") "test";
     t_train ← getitem (_get_data_transforms !! "train") "train";
     t_valid ← getitem (_get_data_transforms !! "valid") "valid";
     Ok (<["valid" := {| root := valid; transform_of := t_valid;
                         classes := fst f_valid; samples := snd f_valid |}]>
         (<["train" := {| root := train; transform_of := t_train;
                          classes := fst f_train; samples := snd f_train |}]>
         (<["test" := {| root := test; transform_of := t_test;
                         classes := fst f_test; samples := snd f_test |}]> ∅)))).
Proof.
  destruct transforms_lookup as (Ltrain & Lvalid & Ltest).
  unfold _get_image_datasets, new_ImageFolder. rewrite Ltrain, Lvalid, Ltest.
  change (assoc [("test", test); ("train", train); ("valid", valid)] "test") with (Some test).
  change (assoc [("test", test); ("train", train); ("valid", valid)] "train") with (Some train).
  change (assoc [("test", test); ("train", train); ("valid", valid)] "valid") with (Some valid).
  unfold getitem. unfold_bind.
  destruct (find_images env test); [|reflexivity].
  destruct (find_images env train); [|reflexivity].
  destruct (find_images env valid); reflexivity.
Qed.

(** X11. Feeding the record's own values back to [__init__]'s coercions
    rebuilds the same record: what a checkpoint stores of the configuration
    reconstructs it unchanged. *)
Theorem config_rebuilds_from_itself architecture dropout epochs hidden_units
    learning_rate output_units (cfg : gmap string val) :
  make_config architecture dropout epochs hidden_units learning_rate output_units = Ok cfg ->
  exists d e h l o,
    cfg !! "dropout" = Some (VFloat d) /\
    cfg !! "epochs" = Some (VInt e) /\
    cfg !! "hidden_units" = Some (VInt h) /\
    cfg !! "learning_rate" = Some (VFloat l) /\
    cfg !! "output_units" = Some (VInt o) /\
    make_config architecture (Float d) (Int e) (Int h) (Float l) (Int o) = Ok cfg.
Proof.
  intros H.
  destruct (make_config_Ok _ _ _ _ _ _ _ H) as (d & e & h & l & o & _ & _ & _ & _ & _ & ->).
  destruct (config_lookups architecture d e h l o) as (_ & Ld & Le & Lh & Ll & _ & Lo).
  exists d, e, h, l, o. repeat (split; [assumption|]). reflexivity.
Qed.

(** X12. When the three directories exist and the enumeration of one of
    them raises, construction ends with the error of the first such split
    in the order test, train, valid, as it was raised. *)
Theorem enumeration_error_propagates (root : string) output_units architecture
    epochs hidden_units learning_rate dropout use_gpu category_names_file :
  is_ok (make_config architecture dropout epochs hidden_units learning_rate output_units)
    = true ->
  (forall ds, In ds splits -> isdir env (joined root ds) = true) ->
  (exists ds, In ds splits /\ is_ok (find_images env (joined root ds)) = false) ->
  exists ds e,
    List.find (fun ds => negb (is_ok (find_images env (joined root ds)))) splits = Some ds /\
    find_images env (joined root ds) = Raise e /\
    __init__ env (Some root) output_units architecture epochs hidden_units
      learning_rate dropout use_gpu category_names_file = Raise e.
Proof.
  intros Hcfg Hdirs (ds0 & Hin & Hfail).
  assert (_get_data_directories env (Some root)
          = Ok [("test", joined root "test"); ("train", joined root "train");
                ("valid", joined root "valid")]) as Hd.
  { rewrite (_get_data_directories_Some env root _ _ _
               (joined_Ok root "test") (joined_Ok root "train") (joined_Ok root "valid")).
    rewrite !Hdirs by (unfold splits; simpl; auto). reflexivity. }
  unfold __init__. rewrite Hd.
  destruct (make_config _ _ _ _ _ _) as [cfg|]; [|discriminate].
  unfold splits in *. simpl in Hin |- *. unfold_bind.
  rewrite _get_image_datasets_stages. unfold_bind.
  destruct (find_images env (joined root "test")) as [f_test|e] eqn:Etest; simpl;
    [|exists "test", e; auto].
  destruct (find_images env (joined root "train")) as [f_train|e] eqn:Etrain; simpl;
    [|exists "train", e; auto].
  destruct (find_images env (joined root "valid")) as [f_valid|e] eqn:Evalid; simpl;
    [|exists "valid", e; auto].
  exfalso.
  destruct Hin as [<-|[<-|[<-|[]]]];
    [rewrite Etest in Hfail | rewrite Etrain in Hfail | rewrite Evalid in Hfail];
    discriminate Hfail.
Qed.

End ConstructionStages.

Lemma config_rebuilds_from_itself_witness :
  make_config "vgg16" (Int 0) (Float (float_literal 379 2)) (Bool true) (Int 1)
    (Float (float_of_Z 102)) = Ok mixed_config /\
  exists d e h l o,
    mixed_config !! "dropout" = Some (VFloat d) /\
    mixed_config !! "epochs" = Some (VInt e) /\
    mixed_config !! "hidden_units" = Some (VInt h) /\
    mixed_config !! "learning_rate" = Some (VFloat l) /\
    mixed_config !! "output_units" = Some (VInt o) /\
    make_config "vgg16" (Float d) (Int e) (Int h) (Float l) (Int o) = Ok mixed_config.
Proof.
  assert (make_config "vgg16" (Int 0) (Float (float_literal 379 2)) (Bool true) (Int 1)
            (Float (float_of_Z 102)) = Ok mixed_config) as H by (vm_compute; reflexivity).
  split; [exact H|].
  exact (config_rebuilds_from_itself "vgg16" (Int 0) (Float (float_literal 379 2))
           (Bool true) (Int 1) (Float (float_of_Z 102)) mixed_config H).
Defined.

Lemma enumeration_error_propagates_witness :
  is_ok (make_config "vgg16" (Float (float_literal 2 1)) (Int 1) (Int 512)
           (Float (float_literal 1 3)) (Int 102)) = true /\
  (forall ds, In ds splits -> isdir unreadable_env (joined "flowers" ds) = true) /\
  (exists ds, In ds splits /\
              is_ok (find_images unreadable_env (joined "flowers" ds)) = false) /\
  exists ds e,
    List.find (fun ds => negb (is_ok (find_images unreadable_env (joined "flowers" ds))))
      splits = Some ds /\
    find_images unreadable_env (joined "flowers" ds) = Raise e /\
    __init__ unreadable_env (Some "flowers") (Int 102) "vgg16" (Int 1) (Int 512)
      (Float (float_literal 1 3)) (Float (float_literal 2 1)) true None = Raise e.
Proof.
  assert (is_ok (make_config "vgg16" (Float (float_literal 2 1)) (Int 1) (Int 512)
                   (Float (float_literal 1 3)) (Int 102)) = true) as Hcfg
    by (vm_compute; reflexivity).
  assert (forall ds, In ds splits -> isdir unreadable_env (joined "flowers" ds) = true)
    as Hdirs by (intros ds _; reflexivity).
  assert (exists ds, In ds splits /\
                     is_ok (find_images unreadable_env (joined "flowers" ds)) = false)
    as Hfail by (exists "train"; split; [right; left; reflexivity | reflexivity]).
  split; [exact Hcfg|]. split; [exact Hdirs|]. split; [exact Hfail|].
  exact (enumeration_error_propagates unreadable_env "flowers" (Int 102) "vgg16" (Int 1)
           (Int 512) (Float (float_literal 1 3)) (Float (float_literal 2 1)) true None
           Hcfg Hdirs Hfail).
Defined.

Section ConstructionOutcome.

Context (env : Env).

(** [_initialize_network] succeeds on a record that holds the six keys with
    values the registry and the constructors accept. *)
Lemma _initialize_network_succeeds (self : Classifier) (name : string)
    (pretrained : Module) (i h o : Z) (d rate : val) :
  config self !! "architecture" = Some (VStr name) ->
  config self !! "input_units" = Some (VInt i) ->
  config self !! "hidden_units" = Some (VInt h) ->
  config self !! "dropout" = Some d ->
  config self !! "output_units" = Some (VInt o) ->
  config self !! "learning_rate" = Some rate ->
  models env name = Some (Ok pretrained) ->
  assoc (own_of pretrained) "classifier" = None ->
  linear_check env i h = None ->
  dropout_check env d = None ->
  linear_check env h o = None ->
  adam_check env (parameters (custom_classifier (head_ident env pretrained) i h d o)) rate = None ->
  _initialize_network env self
  = (set_optimizer
       (set_model self
          (register_module "classifier" (custom_classifier (head_ident env pretrained) i h d o) (freeze pretrained)))
       {| method := Adam; params := parameters (custom_classifier (head_ident env pretrained) i h d o); lr := rate |},
     Ok tt).
Proof.
  intros Ha Hi Hh Hd Ho Hrate Hpre Hown Hl1 Hdc Hl2 Hadam.
  apply (own_freeze_absent "classifier" pretrained) in Hown.
  assert (_get_model env self
          = Ok (register_module "classifier" (custom_classifier (head_ident env pretrained) i h d o) (freeze pretrained)))
    as Hm.
  { unfold _get_model, nn_Linear, nn_Dropout, set_submodule.
    rewrite Ha, Hi, Hh, Hd, Ho. unfold getitem, as_int. unfold_bind.
    rewrite Hpre, Hl1, Hdc, Hl2, Hown. reflexivity. }
  unfold _initialize_network. rewrite Hm, get_submodule_set.
  change (config (set_model self
            (register_module "classifier" (custom_classifier (head_ident env pretrained) i h d o) (freeze pretrained))))
    with (config self).
  rewrite Hrate. unfold optim_Adam, getitem. unfold_bind. rewrite Hadam. reflexivity.
Qed.

(** X13. Construction succeeds whenever the numeric arguments convert, the
    three directories exist and can be enumerated, the registry holds the
    architecture and its factory returns a model that has no parameter of
    its own called [classifier], and the layer and optimizer constructors
    accept their arguments. *)
Theorem construction_succeeds (root : string) output_units architecture epochs
    hidden_units learning_rate dropout use_gpu category_names_file
    (d l : spec_float) (e h o : Z) (pretrained : Module) :
  float dropout = Ok d -> int epochs = Ok e -> int hidden_units = Ok h ->
  float learning_rate = Ok l -> int output_units = Ok o ->
  (forall ds, In ds splits -> isdir env (joined root ds) = true) ->
  (forall ds, In ds splits -> is_ok (find_images env (joined root ds)) = true) ->
  models env architecture = Some (Ok pretrained) ->
  assoc (own_of pretrained) "classifier" = None ->
  linear_check env 1 h = None ->
  dropout_check env (VFloat d) = None ->
  linear_check env h o = None ->
  adam_check env (parameters (custom_classifier (head_ident env pretrained) 1 h (VFloat d) o)) (VFloat l) = None ->
  exists obj,
    __init__ env (Some root) output_units architecture epochs hidden_units
      learning_rate dropout use_gpu category_names_file = Ok obj /\
    model obj = Some (register_module "classifier"
                        (custom_classifier (head_ident env pretrained) 1 h (VFloat d) o) (freeze pretrained)) /\
    optimizer obj = Some {| method := Adam;
                            params := parameters (custom_classifier (head_ident env pretrained) 1 h (VFloat d) o);
                            lr := VFloat l |}.
Proof.
  intros Hd He Hh Hl Ho Hdirs Hscan Hpre Hown Hl1 Hdc Hl2 Hadam.
  unfold __init__, make_config. rewrite Hd, He, Hh, Hl, Ho. unfold_bind.
  rewrite (_get_data_directories_Some env root _ _ _
             (joined_Ok root "test") (joined_Ok root "train") (joined_Ok root "valid")).
  rewrite !Hdirs by (unfold splits; simpl; auto).
  rewrite _get_image_datasets_stages. unfold_bind.
  pose proof (Hscan "test" ltac:(unfold splits; simpl; auto)) as Stest.
  pose proof (Hscan "train" ltac:(unfold splits; simpl; auto)) as Strain.
  pose proof (Hscan "valid" ltac:(unfold splits; simpl; auto)) as Svalid.
  destruct (find_images env (joined root "test")) as [f_test|]; [|discriminate].
  destruct (find_images env (joined root "train")) as [f_train|]; [|discriminate].
  destruct (find_images env (joined root "valid")) as [f_valid|]; [|discriminate].
  destruct transforms_lookup as (Ltrain & Lvalid & Ltest).
  rewrite Ltrain, Lvalid, Ltest. unfold getitem.
  rewrite _get_data_loaders_sets.
  destruct (config_lookups architecture d e h l o) as (La & Ld & _ & Lh & Ll & Li & Lo).
  erewrite _initialize_network_succeeds; try eassumption.
  eexists. split; [reflexivity|]. split; reflexivity.
Qed.

End ConstructionOutcome.

Lemma construction_succeeds_witness :
  (forall ds, In ds splits ->
     isdir (sample_env everywhere 25088) (joined "flowers" ds) = true) /\
  models (sample_env everywhere 25088) "vgg16" = Some (Ok (sample_pretrained 25088)) /\
  assoc (own_of (sample_pretrained 25088)) "classifier" = None /\
  exists obj,
    __init__ (sample_env everywhere 25088) (Some "flowers") (Int 102) "vgg16" (Int 1)
      (Int 512) (Float (float_literal 1 3)) (Float (float_literal 2 1)) true None
      = Ok obj /\
    model obj
      = Some (register_module "classifier"
                (custom_classifier
                   (head_ident (sample_env everywhere 25088) (sample_pretrained 25088))
                   1 512 (VFloat (float_literal 2 1)) 102)
                (freeze (sample_pretrained 25088))) /\
    optimizer obj
      = Some {| method := Adam;
                params := parameters
                            (custom_classifier
                   (head_ident (sample_env everywhere 25088) (sample_pretrained 25088))
                   1 512 (VFloat (float_literal 2 1)) 102);
                lr := VFloat (float_literal 1 3) |}.
Proof.
  assert (forall ds, In ds splits ->
            isdir (sample_env everywhere 25088) (joined "flowers" ds) = true) as Hdirs
    by (intros ds _; reflexivity).
  assert (forall ds, In ds splits ->
            is_ok (find_images (sample_env everywhere 25088) (joined "flowers" ds)) = true)
    as Hscan by (intros ds _; reflexivity).
  split; [exact Hdirs|]. split; [reflexivity|]. split; [reflexivity|].
  exact (construction_succeeds (sample_env everywhere 25088) "flowers" (Int 102) "vgg16"
           (Int 1) (Int 512) (Float (float_literal 1 3)) (Float (float_literal 2 1))
           true None (float_literal 2 1) (float_literal 1 3) 1 512 102
           (sample_pretrained 25088)
           eq_refl eq_refl eq_refl eq_refl eq_refl Hdirs Hscan
           eq_refl eq_refl eq_refl eq_refl eq_refl eq_refl).
Defined.

Section ConstructedObject.

Context (env : Env).

(** A successful [_get_model] passed the three constructor checks. *)
Lemma _get_model_accepted (self : Classifier) (m : Module) :
  _get_model env self = Ok m ->
  exists i h d o,
    config self !! "input_units" = Some (VInt i) /\
    config self !! "hidden_units" = Some (VInt h) /\
    config self !! "dropout" = Some d /\
    config self !! "output_units" = Some (VInt o) /\
    linear_check env i h = None /\
    dropout_check env d = None /\
    linear_check env h o = None.
Proof.
  unfold _get_model, nn_Linear, nn_Dropout, getitem, as_int, check.
  intros H. invert_result.
  repeat eexists; eauto.
Qed.

Lemma _initialize_network_accepted (self self' : Classifier) :
  _initialize_network env self = (self', Ok tt) ->
  exists m clr rate,
    _get_model env self = Ok m /\
    get_submodule "classifier" m = Ok clr /\
    config self !! "learning_rate" = Some rate /\
    adam_check env (parameters clr) rate = None.
Proof.
  unfold _initialize_network, optim_Adam, getitem, check.
  intros H. invert_result.
  repeat eexists; eauto.
Qed.

(** X14. A constructed object exists only under the conditions of X13: the
    data root was given, the numeric arguments converted, the registry holds
    the architecture and its factory returned a model without a parameter of
    its own called [classifier], the constructors accepted, and the object's
    model and optimizer are the ones those values determine. *)
Theorem constructed_object_determined data_dir output_units architecture epochs
    hidden_units learning_rate dropout use_gpu category_names_file obj :
  __init__ env data_dir output_units architecture epochs hidden_units
    learning_rate dropout use_gpu category_names_file = Ok obj ->
  exists root d l h o pretrained,
    data_dir = Some root /\
    float dropout = Ok d /\ float learning_rate = Ok l /\
    int hidden_units = Ok h /\ int output_units = Ok o /\
    models env architecture = Some (Ok pretrained) /\
    assoc (own_of pretrained) "classifier" = None /\
    linear_check env 1 h = None /\
    dropout_check env (VFloat d) = None /\
    linear_check env h o = None /\
    adam_check env
      (parameters (custom_classifier (head_ident env pretrained) 1 h (VFloat d) o))
      (VFloat l) = None /\
    model obj = Some (register_module "classifier"
                        (custom_classifier (head_ident env pretrained) 1 h (VFloat d) o)
                        (freeze pretrained)) /\
    optimizer obj
      = Some {| method := Adam;
                params := parameters
                            (custom_classifier (head_ident env pretrained) 1 h (VFloat d) o);
                lr := VFloat l |}.
Proof.
  intros H.
  destruct (__init___Ok env _ _ _ _ _ _ _ _ _ _ H)
    as (cfg & dirs & sets & loaders & Hcfg & Hdirs & _ & _ & Hnet).
  destruct (_get_data_directories_Ok env _ _ Hdirs) as (root & _ & _ & _ & -> & _).
  destruct (make_config_Ok _ _ _ _ _ _ _ Hcfg)
    as (d & e & h & l & o & Hd & _ & Hh & Hl & Ho & ->).
  destruct (config_lookups architecture d e h l o) as (La & Ld & _ & Lh & Ll & Li & Lo).
  simpl in La, Ld, Lh, Ll, Li, Lo.
  destruct (_initialize_network_Ok env _ _ Hnet) as (m & clr & rate & Hm & Hclr & Hrate & ->).
  destruct (_initialize_network_accepted _ _ Hnet)
    as (m' & clr' & rate' & Hm' & Hclr' & Hrate' & Hadam).
  rewrite Hm in Hm'. injection Hm' as <-.
  rewrite Hclr in Hclr'. injection Hclr' as <-.
  simpl in Hrate, Hrate'. rewrite Hrate in Hrate'. injection Hrate' as <-.
  rewrite Ll in Hrate. injection Hrate as <-.
  destruct (_get_model_Ok env _ _ Hm)
    as (name & pre & i1 & h1 & d1 & o1 & Ha1 & Hpre & Hi1 & Hh1 & Hd1 & Ho1 & Heq).
  pose proof (_get_model_no_clash env _ _ _ _ Hm Ha1 Hpre) as Hown.
  subst m.
  destruct (_get_model_accepted _ _ Hm)
    as (i2 & h2 & d2 & o2 & Hi2 & Hh2 & Hd2 & Ho2 & Hl1 & Hdc & Hl2).
  simpl in Ha1, Hi1, Hh1, Hd1, Ho1, Hi2, Hh2, Hd2, Ho2.
  rewrite La in Ha1. rewrite Li in Hi1, Hi2. rewrite Lh in Hh1, Hh2.
  rewrite Ld in Hd1, Hd2. rewrite Lo in Ho1, Ho2.
  simplify_eq.
  rewrite get_submodule_set in Hclr. injection Hclr as <-.
  do 6 eexists. simpl. repeat (split; [first [eassumption | reflexivity]|]). reflexivity.
Qed.

(** X15. The datasets a constructed object holds are prepared differently:
    the train pipeline has no normalization step, the valid and test
    pipelines have one, and only the train pipeline draws at random. *)
Theorem train_data_not_normalized data_dir output_units architecture epochs
    hidden_units learning_rate dropout use_gpu category_names_file obj :
  __init__ env data_dir output_units architecture epochs hidden_units
    learning_rate dropout use_gpu category_names_file = Ok obj ->
  exists train valid test,
    data_sets obj !! "train" = Some train /\
    data_sets obj !! "valid" = Some valid /\
    data_sets obj !! "test" = Some test /\
    existsb is_normalize (transforms (transform_of train)) = false /\
    existsb is_normalize (transforms (transform_of valid)) = true /\
    existsb is_normalize (transforms (transform_of test)) = true /\
    existsb randomized (transforms (transform_of train)) = true /\
    existsb randomized (transforms (transform_of valid)) = false /\
    existsb randomized (transforms (transform_of test)) = false /\
    transform_of valid = transform_of test.
Proof.
  intros H.
  destruct (__init___Ok env _ _ _ _ _ _ _ _ _ _ H)
    as (cfg & dirs & sets & loaders & _ & Hdirs & Hsets & _ & Hnet).
  pose proof (_initialize_network_keeps env
                {| config := cfg; criterion := NLLLoss; data_dirs := dirs;
                   data_transforms := _get_data_transforms; data_sets := sets;
                   data_loaders := loaders; model := None; optimizer := None |})
    as (_ & _ & _ & _ & Ksets & _).
  rewrite Hnet in Ksets. simpl in Ksets. rewrite Ksets. clear Hnet Ksets H.
  destruct (_get_data_directories_Ok env _ _ Hdirs)
    as (root & test & train & valid & _ & _ & _ & _ & ->).
  destruct (_get_image_datasets_Ok env _ _ _ _ Hsets)
    as (t_test & t_train & t_valid & f_test & f_train & f_valid
        & Ltest & Ltrain & Lvalid & _ & _ & _ & ->).
  destruct transforms_lookup as (Ltrain' & Lvalid' & Ltest').
  rewrite Ltrain' in Ltrain. rewrite Lvalid' in Lvalid. rewrite Ltest' in Ltest.
  injection Ltrain as <-. injection Lvalid as <-. injection Ltest as <-.
  do 3 eexists.
  split; [reflexivity|]. split; [reflexivity|]. split; [reflexivity|].
  repeat split.
Qed.

End ConstructedObject.

Lemma constructed_object_determined_witness :
  __init__ (sample_env everywhere 25088) (Some "flowers") (Int 102) "vgg16" (Int 1)
    (Int 512) (Float (float_literal 1 3)) (Float (float_literal 2 1)) true None
    = Ok (sample_object 25088) /\
  exists root d l h o pretrained,
    Some "flowers" = Some root /\
    float (Float (float_literal 2 1)) = Ok d /\
    float (Float (float_literal 1 3)) = Ok l /\
    int (Int 512) = Ok h /\ int (Int 102) = Ok o /\
    models (sample_env everywhere 25088) "vgg16" = Some (Ok pretrained) /\
    assoc (own_of pretrained) "classifier" = None /\
    linear_check (sample_env everywhere 25088) 1 h = None /\
    dropout_check (sample_env everywhere 25088) (VFloat d) = None /\
    linear_check (sample_env everywhere 25088) h o = None /\
    adam_check (sample_env everywhere 25088)
      (parameters (custom_classifier (head_ident (sample_env everywhere 25088) pretrained)
                     1 h (VFloat d) o))
      (VFloat l) = None /\
    model (sample_object 25088)
      = Some (register_module "classifier"
                (custom_classifier (head_ident (sample_env everywhere 25088) pretrained)
                   1 h (VFloat d) o)
                (freeze pretrained)) /\
    optimizer (sample_object 25088)
      = Some {| method := Adam;
                params := parameters
                            (custom_classifier
                               (head_ident (sample_env everywhere 25088) pretrained)
                               1 h (VFloat d) o);
                lr := VFloat l |}.
Proof.
  assert (__init__ (sample_env everywhere 25088) (Some "flowers") (Int 102) "vgg16"
            (Int 1) (Int 512) (Float (float_literal 1 3)) (Float (float_literal 2 1))
            true None = Ok (sample_object 25088)) as H by (vm_compute; reflexivity).
  split; [exact H|].
  exact (constructed_object_determined (sample_env everywhere 25088) (Some "flowers")
           (Int 102) "vgg16" (Int 1) (Int 512) (Float (float_literal 1 3))
           (Float (float_literal 2 1)) true None (sample_object 25088) H).
Defined.

Lemma train_data_not_normalized_witness :
  __init__ (sample_env everywhere 25088) (Some "flowers") (Int 102) "vgg16" (Int 1)
    (Int 512) (Float (float_literal 1 3)) (Float (float_literal 2 1)) true None
    = Ok (sample_object 25088) /\
  exists train valid test,
    data_sets (sample_object 25088) !! "train" = Some train /\
    data_sets (sample_object 25088) !! "valid" = Some valid /\
    data_sets (sample_object 25088) !! "test" = Some test /\
    existsb is_normalize (transforms (transform_of train)) = false /\
    existsb is_normalize (transforms (transform_of valid)) = true /\
    existsb is_normalize (transforms (transform_of test)) = true /\
    existsb randomized (transforms (transform_of train)) = true /\
    existsb randomized (transforms (transform_of valid)) = false /\
    existsb randomized (transforms (transform_of test)) = false /\
    transform_of valid = transform_of test.
Proof.
  assert (__init__ (sample_env everywhere 25088) (Some "flowers") (Int 102) "vgg16"
            (Int 1) (Int 512) (Float (float_literal 1 3)) (Float (float_literal 2 1))
            true None = Ok (sample_object 25088)) as H by (vm_compute; reflexivity).
  split; [exact H|].
  exact (train_data_not_normalized (sample_env everywhere 25088) (Some "flowers")
           (Int 102) "vgg16" (Int 1) (Int 512) (Float (float_literal 1 3))
           (Float (float_literal 2 1)) true None (sample_object 25088) H).
Defined.
